(** * RAG pipeline: chunking, indexing, retrieval and grounding validation

    A shallow embedding of [ingestion.py], [embed_index.py], [api.py] and
    [validate_agent.py], and the properties of the pipeline proved over it.

    Conventions.
    - A Python [str] is a list of Unicode code points ([char := N]);
      [len] is the Python [len], an integer.
    - A Python [int] is a [Z]; a Python [float] is a binary64 [float].
    - A call that may raise returns a [result]; [Raise e] stands for the
      uncaught exception [e].
    - The embedding model, numpy's floating-point kernels and the FAISS
      distance are external: they are fields of the records [Embedder],
      [NumPy] and [Faiss], over which every statement is quantified. *)

From Stdlib Require Import ZArith List Bool Lia Floats Ascii String.
From Stdlib Require Import DecimalString.
From stdpp Require Import base option list strings gmap.

Open Scope Z_scope.

(* ===================================================================== *)
(** * Python prelude *)
(* ===================================================================== *)

Module Py.

(** Exceptions the modelled code can raise. *)
Inductive exn : Type :=
  | ValueError
  | IndexError
  | AssertionError.

Inductive result (A : Type) : Type :=
  | Ok (a : A)
  | Raise (e : exn).
Arguments Ok {A} a.
Arguments Raise {A} e.

#[export] Instance result_ret : MRet result := fun _ a => Ok a.
#[export] Instance result_bind : MBind result := fun _ _ f m =>
  match m with
  | Ok a => f a
  | Raise e => Raise e
  end.
#[export] Instance result_fmap : FMap result := fun _ _ f m =>
  match m with
  | Ok a => Ok (f a)
  | Raise e => Raise e
  end.

(** A [for] loop in a monad: the body threads the loop state. *)
Fixpoint for_each {M : Type -> Type} `{MBind M, MRet M} {S A : Type}
    (body : S -> A -> M S) (xs : list A) (s : S) : M S :=
  match xs with
  | [] => mret s
  | x :: xs' => s' ← body s x; for_each body xs' s'
  end.

(** Code points and strings. *)
Definition char : Type := N.
Definition str : Type := list char.

Definition LF : char := 10%N.

(** The literal ["\n\n"]. *)
Definition blank_line : str := [LF; LF].

(** ASCII literals, for the examples. *)
Definition str_of (s : string) : str :=
  List.map N_of_ascii (list_ascii_of_string s).

Definition len {A : Type} (l : list A) : Z := Z.of_nat (length l).

(** [if s:] on a string. *)
Definition truthy (s : str) : bool :=
  match s with
  | [] => false
  | _ :: _ => true
  end.

(** [range(start, stop, step)]: [ValueError] on a zero step, otherwise
    the arithmetic progression, of ceil((stop - start) / step) terms. *)
Definition py_range (start stop step : Z) : result (list Z) :=
  if step =? 0 then Raise ValueError
  else
    let count :=
      if 0 <? step then (stop - start + step - 1) / step
      else (start - stop - step - 1) / (- step) in
    Ok (List.map (fun k => start + Z.of_nat k * step) (seq 0 (Z.to_nat count))).

(** A slice bound: negative bounds count from the end, and every bound
    is clipped to [0, n]. *)
Definition slice_bound (n i : Z) : Z :=
  if i <? 0 then Z.max (i + n) 0 else Z.min i n.

(** [s[lo:hi]]. *)
Definition py_slice {A : Type} (s : list A) (lo hi : Z) : list A :=
  let n := len s in
  let lo' := slice_bound n lo in
  let hi' := slice_bound n hi in
  take (Z.to_nat (hi' - lo')) (drop (Z.to_nat lo') s).

(** [l[i]]: a negative index counts from the end; [IndexError] out of
    range. *)
Definition py_index {A : Type} (l : list A) (i : Z) : result A :=
  let j := if i <? 0 then i + len l else i in
  if j <? 0 then Raise IndexError
  else
    match l !! Z.to_nat j with
    | Some x => Ok x
    | None => Raise IndexError
    end.

(** [enumerate(l)]. *)
Definition enumerate {A : Type} (l : list A) : list (Z * A) :=
  imap (fun i x => (Z.of_nat i, x)) l.

(** Prepend a character to the first piece of a split. *)
Definition cons_head (c : char) (ps : list str) : list str :=
  match ps with
  | [] => [[c]]
  | p :: ps' => (c :: p) :: ps'
  end.

(** [s.split("\n\n")]: the pieces between the non-overlapping
    occurrences of the separator, found from the left; always at least
    one piece. *)
Fixpoint split_blank_line (s : str) : list str :=
  match s with
  | [] => [[]]
  | c :: s' =>
    match s' with
    | d :: s'' =>
      if (c =? LF)%N && (d =? LF)%N then [] :: split_blank_line s''
      else cons_head c (split_blank_line s')
    | [] => [[c]]
    end
  end.

(** [sep.join(ps)]. *)
Fixpoint join (sep : str) (ps : list str) : str :=
  match ps with
  | [] => []
  | [p] => p
  | p :: ps' => p ++ sep ++ join sep ps'
  end.

End Py.
Import Py.

(* ===================================================================== *)
(** * ingestion.py *)
(* ===================================================================== *)

Module Ingestion.

(** The loop state of [split_into_chunk]: the list [chunks] and the
    accumulator [current_chunk]. *)
Record state : Type := State {
  chunks : list str;
  current_chunk : str;
}.

(** Body of the inner loop [for i in range(0, len(para), max_chars)]. *)
Definition hard_split_body (para : str) (max_chars : Z) (st : state) (i : Z)
  : state :=
  let chunks_piece := py_slice para i (i + max_chars) in
  let st1 :=
    if truthy (current_chunk st)
    then State (chunks st ++ [current_chunk st]) []
    else st in
  State (chunks st1 ++ [chunks_piece]) (current_chunk st1).

(** Body of the outer loop [for para in raw_paragraphs]. *)
Definition para_body (max_chars : Z) (st : state) (para : str) : result state :=
  if len para >? max_chars then
    starts ← py_range 0 (len para) max_chars;
    Ok (fold_left (hard_split_body para max_chars) starts st)
  else
    if len (current_chunk st) + len para + 2 >? max_chars then
      Ok (State
            (if truthy (current_chunk st)
             then chunks st ++ [current_chunk st] else chunks st)
            para)
    else
      Ok (State
            (chunks st)
            (if truthy (current_chunk st)
             then current_chunk st ++ blank_line ++ para else para)).

(** The final flush of the accumulator. *)
Definition flush (st : state) : list str :=
  if truthy (current_chunk st)
  then chunks st ++ [current_chunk st] else chunks st.

(** The loop over already separated paragraphs. *)
Definition chunk_paragraphs (paras : list str) (max_chars : Z)
  : result (list str) :=
  st ← for_each (para_body max_chars) paras (State [] []);
  Ok (flush st).

Definition split_into_chunk (text : str) (max_chars : Z) : result (list str) :=
  chunk_paragraphs (split_blank_line text) max_chars.

(** The default [max_chars = 100]. *)
Definition default_max_chars : Z := 100.

End Ingestion.

(* ===================================================================== *)
(** * External capabilities *)
(* ===================================================================== *)

(** A one-dimensional array of floats; a two-dimensional array is the
    list of its rows. numpy holds float32 values, each of which is a
    binary64 value; the arithmetic on them is numpy's ([NumPy] below). *)
Definition vec : Type := list float.

(** The sentence-embedding model ([SentenceTransformer(MODEL_NAME)]):
    one vector per text, of a dimension fixed by the model. *)
Record Embedder : Type := {
  emb_dim : nat;
  embed_text : str -> vec;
  embed_text_dim : forall s, length (embed_text s) = emb_dim;
}.

(** numpy's floating-point kernels on float32 data. Their rounding and
    summation order are the library's, so they are kept abstract. *)
Record NumPy : Type := {
  dot_kernel : vec -> vec -> float;
  linalg_norm : vec -> float;
  f32_mul : float -> float -> float;
  f32_div : float -> float -> float;
  np_mean : list float -> float;
}.

(** The squared L2 distance FAISS ranks by. *)
Record Faiss : Type := {
  l2_sqr : vec -> vec -> float;
}.

Module SentenceTransformer.

(** [model.encode(texts, convert_to_numpy=True)]: row [i] embeds
    [texts[i]]. *)
Definition encode (E : Embedder) (texts : list str) : list vec :=
  List.map (embed_text E) texts.

(** [embeddings.shape[1]]. The array encoded from an empty list is
    [np.asarray([])], of shape [(0,)]: it has no second axis. *)
Definition shape1 (a : list vec) : result Z :=
  match a with
  | [] => Raise IndexError
  | row :: _ => Ok (len row)
  end.

End SentenceTransformer.

Module FaissIndex.

(** [faiss.IndexFlatL2], after the documented behaviour of the library:
    the index keeps its vectors in insertion order, and a search is
    exact, by ascending distance, padded with the label -1 when fewer
    than [k] vectors are stored. *)
Record IndexFlatL2 : Type := {
  d : Z;
  xb : list vec;
}.

Definition ntotal (index : IndexFlatL2) : Z := len (xb index).

(** [faiss.IndexFlatL2(dim)]. *)
Definition new (dim : Z) : IndexFlatL2 := {| d := dim; xb := [] |}.

(** [index.add(x)]: the rows are appended; their dimension is asserted. *)
Definition add (index : IndexFlatL2) (x : list vec) : result IndexFlatL2 :=
  if forallb (fun row => len row =? d index) x
  then Ok {| d := d index; xb := xb index ++ x |}
  else Raise AssertionError.

(** Insertion of a (distance, label) hit in a list sorted by distance. *)
Fixpoint insert_hit (h : float * Z) (hs : list (float * Z)) : list (float * Z) :=
  match hs with
  | [] => [h]
  | h' :: hs' =>
    if PrimFloat.leb (fst h) (fst h') then h :: hs
    else h' :: insert_hit h hs'
  end.

(** Every stored vector with its distance to the query, nearest first. *)
Definition ranked (F : Faiss) (index : IndexFlatL2) (q : vec) : list (float * Z) :=
  foldr insert_hit []
    (imap (fun i v => (l2_sqr F q v, Z.of_nat i)) (xb index)).

(** One row of a search result: the [k] nearest, then the padding that
    FAISS returns when fewer than [k] vectors are stored (label -1). *)
Definition search_row (F : Faiss) (index : IndexFlatL2) (k : Z) (q : vec)
  : list float * list Z :=
  let hits := take (Z.to_nat k) (ranked F index q) in
  let pad := (Z.to_nat k - length hits)%nat in
  (List.map fst hits ++ repeat infinity pad,
   List.map snd hits ++ repeat (-1) pad).

(** [index.search(x, k)] for a batch of queries: exact search, one row
    of distances and one row of labels per query. *)
Definition search (F : Faiss) (index : IndexFlatL2) (x : list vec) (k : Z)
  : result (list (list float) * list (list Z)) :=
  if k <=? 0 then Raise AssertionError
  else if forallb (fun q => len q =? d index) x then
    let rows := List.map (search_row F index k) x in
    Ok (List.map fst rows, List.map snd rows)
  else Raise AssertionError.

End FaissIndex.

(* ===================================================================== *)
(** * embed_index.py *)
(* ===================================================================== *)

Module EmbedIndex.
Import Ingestion SentenceTransformer FaissIndex.

(** What [building_embedding_index] persists: the FAISS index file and
    the pickled dictionary with keys ["chunks"] and ["metadata"]. *)
Record artifacts : Type := {
  index_file : IndexFlatL2;
  meta_chunks : list str;
  meta_metadata : list (str * Z);
}.

(** The loop state: [all_chunks] and [metadata]. *)
Definition corpus : Type := (list str * list (str * Z))%type.

(** Body of [for idx, chunk in enumerate(chunks)]. *)
Definition append_chunk (doc_name : str) (acc : corpus) (ic : Z * str) : corpus :=
  (acc.1 ++ [ic.2], acc.2 ++ [(doc_name, ic.1)]).

(** Body of [for doc_name, content in documents.items()]. *)
Definition chunk_document (acc : corpus) (doc : str * str) : result corpus :=
  chunks ← split_into_chunk doc.2 default_max_chars;
  Ok (fold_left (append_chunk doc.1) (enumerate chunks) acc).

(** [building_embedding_index], from the documents that [load_documents]
    returned, in the iteration order of the dictionary. On [Raise]
    nothing has been written. *)
Definition building_embedding_index (E : Embedder) (documents : list (str * str))
  : result artifacts :=
  acc ← for_each chunk_document documents (([], []) : corpus);
  let all_chunks := acc.1 in
  let metadata := acc.2 in
  let embeddings := encode E all_chunks in
  dim ← shape1 embeddings;
  index ← add (new dim) embeddings;
  Ok {| index_file := index;
        meta_chunks := all_chunks;
        meta_metadata := metadata |}.

End EmbedIndex.

(* ===================================================================== *)
(** * api.py *)
(* ===================================================================== *)

Module Api.
Import SentenceTransformer FaissIndex.

Definition TOP_K : Z := 5.

(** The module-level state loaded at start-up. *)
Record store : Type := {
  index : IndexFlatL2;
  chunks_texts : list str;
  chunks_meta : list (str * Z);
}.

(** Body of [for idx in indices]. *)
Definition retrieve_body (st : store) (acc : list str * list (str * Z)) (idx : Z)
  : result (list str * list (str * Z)) :=
  if (0 <=? idx) && (idx <? len (chunks_texts st)) then
    text ← py_index (chunks_texts st) idx;
    meta ← py_index (chunks_meta st) idx;
    Ok (acc.1 ++ [text], acc.2 ++ [meta])
  else Ok acc.

Definition retrieve_top_k_chunks (E : Embedder) (F : Faiss) (st : store)
    (query : str) (k : Z) : result (list str * list (str * Z)) :=
  let q_emb := encode E [query] in
  found ← search F (index st) q_emb k;
  indices ← py_index found.2 0;
  for_each (retrieve_body st) indices ([], []).

End Api.

(* ===================================================================== *)
(** * validate_agent.py *)
(* ===================================================================== *)

Module ValidateAgent.
Import SentenceTransformer.

Definition MAX_CHARS : Z := 5000.

(** The float literal [0.1]. *)
Definition SIMILARITY_THRESHOLD : float := 0x1.999999999999ap-4%float.

(** [np.all(a == 0)]. *)
Definition all_zero (a : vec) : bool :=
  forallb (fun x => PrimFloat.eqb x 0%float) a.

(** [np.dot(a, b)] on one-dimensional arrays: the shapes must agree. *)
Definition np_dot (NP : NumPy) (a b : vec) : result float :=
  if len a =? len b then Ok (dot_kernel NP a b) else Raise ValueError.

Definition cosine_similarity (NP : NumPy) (a b : vec) : result float :=
  if all_zero a || all_zero b then Ok 0%float
  else
    num ← np_dot NP a b;
    Ok (f32_div NP num (f32_mul NP (linalg_norm NP a) (linalg_norm NP b))).

(** The calls a run of the validator makes, in order. *)
Inductive event : Type :=
  | Encode (texts : list str)
  | Cosine (a b : vec).

(** A computation that may raise and that logs its calls. *)
Definition Eff (A : Type) : Type := (list event * result A)%type.

#[export] Instance Eff_ret : MRet Eff := fun _ a => ([], Ok a).
#[export] Instance Eff_bind : MBind Eff := fun _ _ f m =>
  match m.2 with
  | Ok a => (m.1 ++ (f a).1, (f a).2)
  | Raise e => (m.1, Raise e)
  end.

Definition lift {A : Type} (r : result A) : Eff A := ([], r).

Definition call_encode (E : Embedder) (texts : list str) : Eff (list vec) :=
  ([Encode texts], Ok (encode E texts)).

Definition call_cosine (NP : NumPy) (a b : vec) : Eff float :=
  ([Cosine a b], cosine_similarity NP a b).

(** The three messages stored under ["reason"], with the values their
    format strings interpolate:
    - "Resposta excede {MAX_CHARS} caracteres (tamanho={len(llm_output)}).";
    - "Similaridade média baixa ({avg_sim:.3f} < {SIMILARITY_THRESHOLD}). ..."
    - "Validação bem-sucedida." *)
Inductive message : Type :=
  | LengthExceeded (max_chars size : Z)
  | LowSimilarity (avg_sim threshold : float)
  | Success.

(** The values of the [info] dictionary. *)
Inductive value : Type :=
  | VStr (m : message)
  | VFloat (x : float)
  | VList (xs : list float).

(** Body of [for emb in chunk_embs]. *)
Definition sims_body (NP : NumPy) (resp_emb : vec) (sims : list float) (emb : vec)
  : Eff (list float) :=
  s ← call_cosine NP resp_emb emb;
  mret (sims ++ [s]).

(** [float(np.mean(sims)) if sims else 0.0]. *)
Definition average (NP : NumPy) (sims : list float) : float :=
  match sims with
  | [] => 0%float
  | _ :: _ => np_mean NP sims
  end.

Definition validate_llm_output (E : Embedder) (NP : NumPy)
    (llm_output question : str) (retrieved_texts : list str)
  : Eff (bool * gmap string value) :=
  let info : gmap string value := ∅ in
  if len llm_output >? MAX_CHARS then
    mret (false,
          <["reason" := VStr (LengthExceeded MAX_CHARS (len llm_output))]> info)
  else
    encoded ← call_encode E [llm_output];
    resp_emb ← lift (py_index encoded 0);
    chunk_embs ← call_encode E retrieved_texts;
    sims ← for_each (sims_body NP resp_emb) chunk_embs [];
    let avg_sim := average NP sims in
    let info := <["average_similarity_with_chunks" := VFloat avg_sim]> info in
    let info := <["individual_similarities" := VList sims]> info in
    if PrimFloat.ltb avg_sim SIMILARITY_THRESHOLD then
      mret (false,
            <["reason" := VStr (LowSimilarity avg_sim SIMILARITY_THRESHOLD)]> info)
    else
      mret (true, <["reason" := VStr Success]> info).

End ValidateAgent.

(* ===================================================================== *)
(** * ingestion.py: loading the documents *)
(* ===================================================================== *)

(** The operating system, as [load_documents] uses it. *)
Module Os.

(** [OSError] (a missing folder, a directory named like a text file, a
    permission) and [UnicodeDecodeError] (a file that is not UTF-8). *)
Inductive os_exn : Type :=
  | OSError
  | UnicodeDecodeError.

Inductive io (A : Type) : Type :=
  | Done (a : A)
  | Fail (e : os_exn).
Arguments Done {A} a.
Arguments Fail {A} e.

#[export] Instance io_ret : MRet io := fun _ a => Done a.
#[export] Instance io_bind : MBind io := fun _ _ f m =>
  match m with
  | Done a => f a
  | Fail e => Fail e
  end.

(** [os.listdir], [os.path.join], and [open(path, "r",
    encoding="utf-8")] followed by [read()]. *)
Record FileSystem : Type := {
  listdir : str -> io (list str);
  path_join : str -> str -> str;
  read_text : str -> io str;
}.

End Os.

(** [str.lower()], which follows the Unicode case mappings. *)
Record Unicode : Type := {
  str_lower : str -> str;
}.

Module IngestionLoad.
Import Os.

(** [s.endswith(suffix)]. *)
Definition py_endswith (s suffix : str) : bool :=
  bool_decide (drop (length s - length suffix) s = suffix).

(** A [dict] from file names to texts: the items in insertion order,
    one per key. *)
Definition dict : Type := list (str * str).

(** [d[key] = value]: a key already present keeps its place. *)
Fixpoint dict_set (d : dict) (key value : str) : dict :=
  match d with
  | [] => [(key, value)]
  | (k, v) :: d' =>
    if decide (k = key) then (key, value) :: d'
    else (k, v) :: dict_set d' key value
  end.

(** [file_name.lower().endswith(".txt")]. *)
Definition is_txt (U : Unicode) (file_name : str) : bool :=
  py_endswith (str_lower U file_name) (str_of ".txt").

(** Body of [for file_name in os.listdir(folder_path)]. *)
Definition load_body (U : Unicode) (fs : FileSystem) (folder_path : str)
    (docs : dict) (file_name : str) : io dict :=
  if is_txt U file_name then
    let file_path := path_join fs folder_path file_name in
    text ← read_text fs file_path;
    Done (dict_set docs file_name text)
  else Done docs.

Definition load_documents (U : Unicode) (fs : FileSystem) (folder_path : str)
  : io dict :=
  names ← listdir fs folder_path;
  for_each (load_body U fs folder_path) names [].

End IngestionLoad.

(* ===================================================================== *)
(** * embed_index.py: the build, from the folder *)
(* ===================================================================== *)

Module EmbedIndexMain.
Import Os IngestionLoad.

(** [building_embedding_index(docs_folder)]: the documents are loaded,
    then chunked, embedded and indexed; [documents.items()] lists the
    dictionary in insertion order. *)
Definition building_embedding_index (U : Unicode) (fs : FileSystem)
    (E : Embedder) (docs_folder : str) : io (result EmbedIndex.artifacts) :=
  documents ← load_documents U fs docs_folder;
  Done (EmbedIndex.building_embedding_index E documents).

End EmbedIndexMain.

(* ===================================================================== *)
(** * api.py: start-up, prompt, completion and the endpoint *)
(* ===================================================================== *)

(** The chat-completion service: the content of the first choice for a
    user prompt, or [None] when anything in the call raises. *)
Record Completion : Type := {
  chat_completion : str -> option str;
}.

Module ApiService.
Import Api ValidateAgent.

(** [faiss.read_index(INDEX_PATH)] and [pickle.load] of the metadata
    file: the store is what the build persisted. *)
Definition load_store (a : EmbedIndex.artifacts) : store := {|
  index := EmbedIndex.index_file a;
  chunks_texts := EmbedIndex.meta_chunks a;
  chunks_meta := EmbedIndex.meta_metadata a;
|}.

(** [c.isspace()] for one character: the white space of Unicode. *)
Definition isspace (c : char) : bool :=
  ((9 <=? c) && (c <=? 13) || (28 <=? c) && (c <=? 32)
   || (c =? 133) || (c =? 160) || (c =? 5760)
   || (8192 <=? c) && (c <=? 8202)
   || (c =? 8232) || (c =? 8233) || (c =? 8239) || (c =? 8287)
   || (c =? 12288))%N.

(** [s.lstrip()] and [s.strip()]. *)
Fixpoint py_lstrip (s : str) : str :=
  match s with
  | [] => []
  | c :: s' => if isspace c then py_lstrip s' else s
  end.

Definition py_strip (s : str) : str :=
  rev (py_lstrip (rev (py_lstrip s))).

(** [str(n)]. *)
Definition py_str (n : Z) : str :=
  str_of (DecimalString.NilZero.string_of_int (Z.to_int n)).

(** The fixed lines of the prompt. *)
Definition PREAMBLE : str :=
  str_of "Voc" ++ [234%N] ++ str_of " " ++ [233%N]
  ++ str_of " um assistente que responde com base no contexto fornecido."
  ++ [LF].

Definition CONTEXT_HEADER : str :=
  str_of "====== CONTEXTO RECUPERADO ======" ++ [LF].

Definition QUESTION_HEADER : str :=
  str_of "====== PERGUNTA ======" ++ [LF].

Definition INSTRUCTION : str :=
  str_of "Com base no contexto acima, responda de forma objetiva:".

(** Body of [for i, chunk in enumerate(retrieved_texts)]:
    [prompt += f"CHUNK {i+1}:\n{chunk}\n\n"]. *)
Definition prompt_body (prompt : str) (ic : Z * str) : str :=
  prompt ++ (str_of "CHUNK " ++ py_str (ic.1 + 1) ++ str_of ":" ++ [LF]
             ++ ic.2 ++ [LF; LF]).

Definition build_prompt (question : str) (retrieved_texts : list str) : str :=
  let prompt := PREAMBLE in
  let prompt := prompt ++ CONTEXT_HEADER in
  let prompt := fold_left prompt_body (enumerate retrieved_texts) prompt in
  let prompt := prompt ++ QUESTION_HEADER in
  let prompt := prompt ++ (question ++ [LF; LF]) in
  prompt ++ INSTRUCTION.

(** [call_openai]: the stripped content, or [None] for the
    [RuntimeError] that wraps any exception of the call. *)
Definition call_openai (C : Completion) (prompt : str) : option str :=
  match chat_completion C prompt with
  | Some content => Some (py_strip content)
  | None => None
  end.

(** The [detail] of an [HTTPException]. *)
Inductive detail : Type :=
  | EmptyQuestion
  | ValidationFailed (validation_info : gmap string value).

(** How a request ends: the response, an [HTTPException], the
    [RuntimeError] of [call_openai], or another uncaught exception. *)
Inductive outcome : Type :=
  | QueryResponse (answer : str) (retrieved_chunks : list str)
  | HTTPException (status_code : Z) (d : detail)
  | RuntimeError
  | Uncaught (e : exn).

(** The calls a request makes, in order. *)
Inductive call : Type :=
  | Embed (texts : list str)
  | Search (k : Z)
  | OpenAI (prompt : str)
  | Validator (e : event).

Definition ask (E : Embedder) (F : Faiss) (NP : NumPy) (C : Completion)
    (st : store) (request_question : str) : list call * outcome :=
  let question := py_strip request_question in
  if negb (truthy question) then ([], HTTPException 400 EmptyQuestion)
  else
    let log := [Embed [question]; Search TOP_K] in
    match retrieve_top_k_chunks E F st question TOP_K with
    | Raise e => (log, Uncaught e)
    | Ok (retrieved_texts, retrieved_meta) =>
      let prompt := build_prompt question retrieved_texts in
      let log := log ++ [OpenAI prompt] in
      match call_openai C prompt with
      | None => (log, RuntimeError)
      | Some llm_output =>
        let run := validate_llm_output E NP llm_output question retrieved_texts in
        let log := log ++ (Validator <$> run.1) in
        match run.2 with
        | Raise e => (log, Uncaught e)
        | Ok (is_valid, validation_info) =>
          if negb is_valid
          then (log, HTTPException 502 (ValidationFailed validation_info))
          else (log, QueryResponse llm_output retrieved_texts)
        end
      end
    end.

End ApiService.

(* ===================================================================== *)
(** * Test doubles for the external capabilities *)
(* ===================================================================== *)

Module Doubles.

(** Embeds a text as (its length, 1). *)
Program Definition length_embedder : Embedder := {|
  emb_dim := 2;
  embed_text := fun s => [PrimFloat.of_uint63 (Uint63.of_Z (len s)); 1%float];
|}.
Next Obligation. reflexivity. Qed.

(** Embeds every text as a vector that is not a number. *)
Program Definition nan_embedder : Embedder := {|
  emb_dim := 1;
  embed_text := fun _ => [nan];
|}.
Next Obligation. reflexivity. Qed.

(** Embeds every text as the zero vector. *)
Program Definition zero_embedder : Embedder := {|
  emb_dim := 2;
  embed_text := fun _ => [0%float; 0%float];
|}.
Next Obligation. reflexivity. Qed.

Definition sum (xs : list float) : float := fold_left PrimFloat.add xs 0%float.

Definition dot (a b : vec) : float :=
  sum (List.map (fun p => PrimFloat.mul p.1 p.2) (zip a b)).

(** Left-to-right binary64 arithmetic. *)
Definition naive_numpy : NumPy := {|
  dot_kernel := dot;
  linalg_norm := fun a => PrimFloat.sqrt (dot a a);
  f32_mul := PrimFloat.mul;
  f32_div := PrimFloat.div;
  np_mean := fun xs =>
    PrimFloat.div (sum xs) (PrimFloat.of_uint63 (Uint63.of_Z (len xs)));
|}.

Definition naive_faiss : Faiss := {|
  l2_sqr := fun a b => dot (List.map (fun p => PrimFloat.sub p.1 p.2) (zip a b))
                           (List.map (fun p => PrimFloat.sub p.1 p.2) (zip a b));
|}.

(** A store of three chunks behind a three-vector index. *)
Definition three_chunks : Api.store := {|
  Api.index := {| FaissIndex.d := 2;
              FaissIndex.xb :=
                [[5%float; 1%float]; [10%float; 1%float]; [2%float; 1%float]] |};
  Api.chunks_texts := [str_of "alpha"; str_of "beta gamma"; str_of "pi"];
  Api.chunks_meta :=
    [(str_of "a.txt", 0); (str_of "a.txt", 1); (str_of "b.txt", 0)];
|}.

End Doubles.

(** Doubles for the file system, the case mapping, the completion
    service and the persisted artifacts. *)
Module ServiceDoubles.

(** Lower case of the ASCII letters; other characters are kept. *)
Definition ascii_lower : Unicode := {|
  str_lower := List.map (fun c => if (65 <=? c) && (c <=? 90) then c + 32 else c)%N;
|}.

(** A folder ["docs"] with two text files and a file of another kind;
    every path is the folder, a slash and the name. *)
Definition small_folder : Os.FileSystem := {|
  Os.listdir := fun folder =>
    if bool_decide (folder = str_of "docs")
    then Os.Done [str_of "a.txt"; str_of "notes.md"; str_of "B.TXT"]
    else Os.Fail Os.OSError;
  Os.path_join := fun folder name => folder ++ str_of "/" ++ name;
  Os.read_text := fun path =>
    if bool_decide (path = str_of "docs/a.txt") then Os.Done (str_of "hello")
    else if bool_decide (path = str_of "docs/B.TXT") then Os.Done (str_of "world")
    else Os.Fail Os.OSError;
|}.

(** A service that always replies the same, and one that always fails. *)
Definition constant_completion (reply : str) : Completion := {|
  chat_completion := fun _ => Some reply;
|}.

Definition failing_completion : Completion := {|
  chat_completion := fun _ => None;
|}.

Definition two_documents : list (str * str) :=
  [(str_of "a.txt", str_of "hello" ++ blank_line ++ str_of "world");
   (str_of "b.txt", str_of "pi")].

(** What the build persists for [two_documents] under the length
    embedder. *)
Definition two_documents_artifacts : EmbedIndex.artifacts := {|
  EmbedIndex.index_file := {|
    FaissIndex.d := 2;
    FaissIndex.xb := [[12%float; 1%float]; [2%float; 1%float]] |};
  EmbedIndex.meta_chunks :=
    [str_of "hello" ++ blank_line ++ str_of "world"; str_of "pi"];
  EmbedIndex.meta_metadata := [(str_of "a.txt", 0); (str_of "b.txt", 0)];
|}.

(** Three chunks and an index of three vectors, with two metadata
    entries only. *)
Definition short_metadata : Api.store := {|
  Api.index := Api.index Doubles.three_chunks;
  Api.chunks_texts := Api.chunks_texts Doubles.three_chunks;
  Api.chunks_meta := [(str_of "a.txt", 0); (str_of "a.txt", 1)];
|}.

(** A store without any chunk. *)
Definition empty_store : Api.store := {|
  Api.index := FaissIndex.new 2;
  Api.chunks_texts := [];
  Api.chunks_meta := [];
|}.

End ServiceDoubles.

(* ===================================================================== *)
(** * Notions used in the statements and in the proofs *)
(* ===================================================================== *)

Module Notions.
Import Ingestion SentenceTransformer FaissIndex EmbedIndex Api ValidateAgent.

(** The number of terms of [range(0, n, step)] for a positive step. *)
Definition ceil_div (n step : Z) : nat := Z.to_nat ((n + step - 1) / step).

(** The consecutive windows of [max_chars] characters of a paragraph. *)
Definition pieces (para : str) (max_chars : Z) : list str :=
  List.map (fun k => take (Z.to_nat max_chars) (drop (k * Z.to_nat max_chars) para))
           (seq 0 (ceil_div (len para) max_chars)).

(** The loop invariant behind the length bound. *)
Definition bounded (max_chars : Z) (st : state) : Prop :=
  Forall (fun c => len c <= max_chars) (chunks st) /\
  (current_chunk st <> [] -> len (current_chunk st) <= max_chars).

(** The chunks of one document at the default bound, and their
    metadata. *)
Definition doc_chunks (doc : str * str) : list str :=
  match split_into_chunk doc.2 default_max_chars with
  | Ok cs => cs
  | Raise _ => []
  end.

Definition doc_metadata (doc : str * str) : list (str * Z) :=
  imap (fun i _ => (doc.1, Z.of_nat i)) (doc_chunks doc).

Definition corpus_chunks (documents : list (str * str)) : list str :=
  concat (List.map doc_chunks documents).

Definition corpus_metadata (documents : list (str * str)) : list (str * Z) :=
  concat (List.map doc_metadata documents).

(** The element a label designates, when the label is a position of a
    list of [n] chunks. *)
Definition pick {A : Type} (l : list A) (n : Z) (idx : Z) : option A :=
  if (0 <=? idx) && (idx <? n) then l !! Z.to_nat idx else None.

(** What a kept pair is: the chunk and the metadata at one in-range
    label of the search. *)
Definition designated (st : store) (labels : list Z) (text : str) (meta : str * Z)
  : Prop :=
  exists idx,
    idx ∈ labels /\ 0 <= idx < len (chunks_texts st) /\
    chunks_texts st !! Z.to_nat idx = Some text /\
    chunks_meta st !! Z.to_nat idx = Some meta.

(** A vector all of whose components are zero, of either sign. *)
Definition zero_vector (a : vec) : Prop :=
  Forall (fun x => x = 0%float \/ x = (-0)%float) a.

(** The info dictionary after the grounding gate. *)
Definition grounding_info (avg_sim : float) (sims : list float) (reason : message)
  : gmap string value :=
  <["reason" := VStr reason]>
    (<["individual_similarities" := VList sims]>
       (<["average_similarity_with_chunks" := VFloat avg_sim]> ∅)).

End Notions.
Import Notions.

(* ===================================================================== *)
(** * Facts about the Python prelude *)
(* ===================================================================== *)

Module PyFacts.

Lemma len_nonneg {A : Type} (l : list A) : 0 <= len l.
Proof. unfold len. lia. Qed.

Lemma len_app {A : Type} (l1 l2 : list A) : len (l1 ++ l2) = len l1 + len l2.
Proof. unfold len. rewrite length_app. lia. Qed.

Lemma truthy_true (s : str) : truthy s = true <-> s <> [].
Proof. destruct s; simpl; split; congruence. Qed.

(** Loops in the [result] monad. *)
Lemma bind_Ok {A B : Type} (a : A) (f : A -> result B) : (Ok a ≫= f) = f a.
Proof. reflexivity. Qed.

Lemma for_each_nil {S A : Type} (body : S -> A -> result S) (s : S) :
  for_each body [] s = Ok s.
Proof. reflexivity. Qed.

Lemma for_each_cons {S A : Type} (body : S -> A -> result S) (x : A) (xs : list A)
    (s : S) :
  for_each body (x :: xs) s = (body s x ≫= for_each body xs).
Proof. reflexivity. Qed.

Lemma for_each_app {S A : Type} (body : S -> A -> result S) (xs ys : list A) (s : S) :
  for_each body (xs ++ ys) s = (s' ← for_each body xs s; for_each body ys s').
Proof.
  revert s. induction xs as [|x xs IH]; intros s; simpl; [reflexivity|].
  destruct (body s x) as [s'|e]; simpl; [apply IH | reflexivity].
Qed.

Lemma for_each_invariant {S A : Type} (P : S -> Prop) (body : S -> A -> result S)
    (xs : list A) :
  (forall s x s', x ∈ xs -> P s -> body s x = Ok s' -> P s') ->
  forall s s', P s -> for_each body xs s = Ok s' -> P s'.
Proof.
  induction xs as [|x xs IH]; intros Hbody s s' Hs Hrun; simpl in Hrun.
  - injection Hrun as <-. exact Hs.
  - destruct (body s x) as [s1|e] eqn:Hx; simpl in Hrun; [|discriminate].
    eapply IH; [|eapply Hbody; [left|..]; eassumption|exact Hrun].
    intros ? ? ? ?. apply Hbody. by right.
Qed.

Lemma for_each_total {S A : Type} (body : S -> A -> result S) :
  (forall s x, exists s', body s x = Ok s') ->
  forall xs s, exists s', for_each body xs s = Ok s'.
Proof.
  intros Hbody xs. induction xs as [|x xs IH]; intros s; simpl.
  - eexists; reflexivity.
  - destruct (Hbody s x) as [s1 ->]. simpl. apply IH.
Qed.

Lemma py_range_pos (n step : Z) :
  0 < step ->
  py_range 0 n step
  = Ok (List.map (fun k => Z.of_nat k * step) (seq 0 (ceil_div n step))).
Proof.
  intros Hstep. unfold py_range, ceil_div.
  destruct (Z.eqb_spec step 0); [lia|].
  destruct (Z.ltb_spec 0 step); [|lia].
  rewrite Z.sub_0_r. reflexivity.
Qed.

Lemma py_range_neg (n step : Z) :
  step < 0 -> 0 <= n -> py_range 0 n step = Ok [].
Proof.
  intros Hstep Hn. unfold py_range.
  destruct (Z.eqb_spec step 0); [lia|].
  destruct (Z.ltb_spec 0 step); [lia|].
  assert ((0 - n - step - 1) / - step <= 0) as Hq.
  { apply Z.lt_succ_r. apply Z.div_lt_upper_bound; lia. }
  replace (Z.to_nat ((0 - n - step - 1) / - step)) with 0%nat by lia.
  reflexivity.
Qed.

Lemma ceil_div_bounds (n step : Z) :
  0 < step -> 0 < n ->
  (Z.of_nat (ceil_div n step) - 1) * step < n <= Z.of_nat (ceil_div n step) * step.
Proof.
  intros Hstep Hn. unfold ceil_div.
  pose proof (Z.div_mod (n + step - 1) step ltac:(lia)) as Hdm.
  pose proof (Z.mod_pos_bound (n + step - 1) step Hstep) as Hmod.
  assert (0 <= (n + step - 1) / step) as Hq by (apply Z.div_pos; lia).
  rewrite Z2Nat.id by exact Hq. nia.
Qed.

(** A slice that starts inside the string. *)
Lemma py_slice_window {A : Type} (s : list A) (i w : Z) :
  0 <= i -> 0 < w ->
  py_slice s i (i + w) = take (Z.to_nat w) (drop (Z.to_nat i) s).
Proof.
  intros Hi Hw. unfold py_slice, slice_bound.
  pose proof (len_nonneg s) as Hn.
  destruct (Z.ltb_spec i 0); [lia|].
  destruct (Z.ltb_spec (i + w) 0); [lia|].
  destruct (Z.le_gt_cases (i + w) (len s)) as [Hin|Hout].
  - rewrite !Z.min_l by lia. f_equal. lia.
  - rewrite (Z.min_r (i + w)) by lia.
    destruct (Z.le_gt_cases i (len s)) as [Hi'|Hi'].
    + rewrite Z.min_l by lia.
      rewrite !take_ge by (rewrite length_drop; unfold len in *; lia).
      reflexivity.
    + rewrite Z.min_r by lia.
      rewrite !drop_ge by (unfold len in *; lia).
      rewrite !take_nil. reflexivity.
Qed.

(** Cutting a list in windows of [m] elements loses nothing. *)
Lemma concat_windows {A : Type} (l : list A) (m cnt : nat) :
  concat (List.map (fun k => take m (drop (k * m) l)) (seq 0 cnt))
  = take (cnt * m) l.
Proof.
  induction cnt as [|cnt IH].
  - simpl. rewrite take_0. reflexivity.
  - rewrite seq_S, List.map_app, concat_app, IH. simpl.
    rewrite app_nil_r, take_take_drop. f_equal. lia.
Qed.

(** [split] and [join] are inverse. *)
Lemma join_cons_head (c : char) (ps : list str) :
  ps <> [] -> join blank_line (cons_head c ps) = c :: join blank_line ps.
Proof. destruct ps as [|p [|q ps]]; simpl; congruence. Qed.

Lemma split_blank_line_step (c d : char) (s : str) :
  split_blank_line (c :: d :: s)
  = if (c =? LF)%N && (d =? LF)%N then [] :: split_blank_line s
    else cons_head c (split_blank_line (d :: s)).
Proof. reflexivity. Qed.

Lemma split_blank_line_nonempty (s : str) : split_blank_line s <> [].
Proof.
  destruct s as [|c [|d s]]; [discriminate | discriminate |].
  rewrite split_blank_line_step.
  destruct ((c =? LF)%N && (d =? LF)%N); [discriminate|].
  destruct (split_blank_line (d :: s)); discriminate.
Qed.

Lemma join_split_blank_line (s : str) : join blank_line (split_blank_line s) = s.
Proof.
  assert (forall n (s : str), (length s <= n)%nat ->
            join blank_line (split_blank_line s) = s) as H.
  { clear s. induction n as [|n IH]; intros s Hlen.
    - destruct s; [reflexivity | simpl in Hlen; lia].
    - destruct s as [|c [|d s]]; [reflexivity | reflexivity |].
      rewrite split_blank_line_step.
      destruct ((c =? LF)%N && (d =? LF)%N) eqn:Hsep.
      + apply andb_true_iff in Hsep as [Hc Hd].
        apply N.eqb_eq in Hc, Hd. subst c d.
        pose proof (split_blank_line_nonempty s) as Hne.
        pose proof (IH s ltac:(simpl in Hlen; lia)) as Hs.
        destruct (split_blank_line s) as [|p ps]; [congruence|].
        change (join blank_line ([] :: p :: ps))
          with (blank_line ++ join blank_line (p :: ps)).
        rewrite Hs. reflexivity.
      + rewrite join_cons_head by apply split_blank_line_nonempty.
        rewrite IH by (simpl in *; lia). reflexivity. }
  apply (H (length s)). lia.
Qed.

End PyFacts.

(* ===================================================================== *)
(** * Facts about the chunker *)
(* ===================================================================== *)

Module IngestionFacts.
Import Ingestion PyFacts.

Lemma flush_emptied (cs : list str) : flush (State cs []) = cs.
Proof. reflexivity. Qed.

Lemma hard_split_body_eq (para : str) (max_chars : Z) (st : state) (i : Z) :
  hard_split_body para max_chars st i
  = State (flush st ++ [py_slice para i (i + max_chars)]) [].
Proof.
  unfold hard_split_body, flush. destruct st as [cs cur]; simpl.
  destruct cur; reflexivity.
Qed.

Lemma fold_hard_split (para : str) (max_chars : Z) (starts : list Z) (st : state) :
  starts <> [] ->
  fold_left (hard_split_body para max_chars) starts st
  = State (flush st ++ List.map (fun i => py_slice para i (i + max_chars)) starts) [].
Proof.
  revert st. induction starts as [|i starts IH]; intros st Hne; [congruence|].
  simpl. rewrite hard_split_body_eq.
  destruct starts as [|j starts]; [reflexivity|].
  rewrite IH by congruence. rewrite flush_emptied, <- app_assoc. reflexivity.
Qed.

(** A paragraph longer than a positive [max_chars]: the accumulator is
    flushed, then the windows of the paragraph are emitted. *)
Lemma para_body_long (max_chars : Z) (st : state) (para : str) :
  0 < max_chars -> max_chars < len para ->
  para_body max_chars st para = Ok (State (flush st ++ pieces para max_chars) []).
Proof.
  intros Hpos Hlong. unfold para_body.
  destruct (Z.gtb_spec (len para) max_chars); [|lia].
  rewrite py_range_pos by lia. simpl.
  pose proof (ceil_div_bounds (len para) max_chars Hpos ltac:(lia)) as Hc.
  rewrite fold_hard_split.
  2:{ destruct (ceil_div (len para) max_chars); [lia | discriminate]. }
  unfold pieces. rewrite List.map_map. do 3 f_equal.
  apply List.map_ext. intros k.
  rewrite py_slice_window by lia. f_equal. f_equal. lia.
Qed.

Lemma para_body_negative (max_chars : Z) (st : state) (para : str) :
  max_chars < 0 -> para_body max_chars st para = Ok st.
Proof.
  intros Hneg. unfold para_body. pose proof (len_nonneg para).
  destruct (Z.gtb_spec (len para) max_chars); [|lia].
  rewrite py_range_neg by lia. reflexivity.
Qed.

Lemma para_body_zero (st : state) (para : str) :
  0 < len para -> para_body 0 st para = Raise ValueError.
Proof.
  intros Hlen. unfold para_body.
  destruct (Z.gtb_spec (len para) 0); [reflexivity | lia].
Qed.

(** A paragraph within the bound goes through the accumulator. *)
Lemma para_body_short (max_chars : Z) (st : state) (para : str) :
  len para <= max_chars ->
  para_body max_chars st para
  = if len (current_chunk st) + len para + 2 >? max_chars
    then Ok (State (flush st) para)
    else Ok (State (chunks st)
                   (if truthy (current_chunk st)
                    then current_chunk st ++ blank_line ++ para else para)).
Proof.
  intros Hshort. unfold para_body.
  destruct (Z.gtb_spec (len para) max_chars); [lia | reflexivity].
Qed.

Lemma pieces_concat (para : str) (max_chars : Z) :
  0 < max_chars -> concat (pieces para max_chars) = para.
Proof.
  intros Hpos. unfold pieces. rewrite concat_windows.
  destruct para as [|c para]; [apply take_nil|].
  apply take_ge.
  assert (0 < len (c :: para)) as Hn by (unfold len; simpl; lia).
  pose proof (ceil_div_bounds (len (c :: para)) max_chars Hpos Hn) as Hc.
  revert Hc. generalize (ceil_div (len (c :: para)) max_chars). intros cnt Hc.
  unfold len in *. nia.
Qed.

(** Every window but the last is full; the last one is not empty. *)
Lemma pieces_lookup (para : str) (max_chars : Z) (j : nat) (p : str) :
  0 < max_chars ->
  pieces para max_chars !! j = Some p ->
  0 < len p <= max_chars /\
  ((j + 1 < length (pieces para max_chars))%nat -> len p = max_chars).
Proof.
  intros Hpos Hj. unfold pieces in *.
  rewrite length_map, length_seq.
  rewrite list_lookup_fmap in Hj.
  destruct (seq 0 (ceil_div (len para) max_chars) !! j) as [k|] eqn:Hk;
    [|discriminate].
  apply lookup_seq in Hk as [-> Hlt]. simpl in Hj. injection Hj as <-.
  assert (0 < len para) as Hn.
  { destruct para; [|unfold len; simpl; lia].
    unfold ceil_div in Hlt. change (len []) with 0 in Hlt.
    rewrite Z.div_small in Hlt by lia. simpl in Hlt. lia. }
  pose proof (ceil_div_bounds (len para) max_chars Hpos Hn) as Hc.
  unfold len in *. rewrite length_take, length_drop. split; [nia|].
  intros Hnext. nia.
Qed.

(** ** The outer loop only appends to [chunks] *)

Lemma para_body_extends (max_chars : Z) (st st' : state) (para : str) :
  para_body max_chars st para = Ok st' ->
  exists added, chunks st' = chunks st ++ added.
Proof.
  unfold para_body. intros Hrun.
  destruct (len para >? max_chars).
  - destruct (py_range 0 (len para) max_chars) as [starts|e]; [|discriminate].
    simpl in Hrun. injection Hrun as <-.
    destruct starts as [|i starts]; [exists []; simpl; by rewrite app_nil_r|].
    rewrite fold_hard_split by discriminate. simpl.
    unfold flush. destruct (truthy (current_chunk st)).
    + eexists. rewrite <- app_assoc. reflexivity.
    + eexists. reflexivity.
  - destruct (_ >? max_chars); injection Hrun as <-; simpl.
    + destruct (truthy (current_chunk st)); eexists; [reflexivity|].
      symmetry. apply app_nil_r.
    + exists []. symmetry. apply app_nil_r.
Qed.

Lemma for_each_para_extends (max_chars : Z) (paras : list str) (st st' : state) :
  for_each (para_body max_chars) paras st = Ok st' ->
  exists added, chunks st' = chunks st ++ added.
Proof.
  revert st. induction paras as [|p paras IH]; intros st Hrun; simpl in Hrun.
  - injection Hrun as <-. exists []. symmetry. apply app_nil_r.
  - destruct (para_body max_chars st p) as [st1|e] eqn:Hp; [|discriminate].
    simpl in Hrun. apply para_body_extends in Hp as [a1 Ha1].
    apply IH in Hrun as [a2 Ha2]. exists (a1 ++ a2).
    rewrite Ha2, Ha1, app_assoc. reflexivity.
Qed.

Lemma flush_extends (st : state) : exists added, flush st = chunks st ++ added.
Proof.
  unfold flush. destruct (truthy (current_chunk st)); eexists; [reflexivity|].
  symmetry. apply app_nil_r.
Qed.

(** ** Invariant: every emitted chunk is within the bound *)

Lemma bounded_flush (max_chars : Z) (st : state) :
  bounded max_chars st -> Forall (fun c => len c <= max_chars) (flush st).
Proof.
  intros [Hcs Hcur]. unfold flush.
  destruct (truthy (current_chunk st)) eqn:Ht; [|exact Hcs].
  apply Forall_app. split; [exact Hcs|].
  constructor; [|constructor]. apply Hcur. by apply truthy_true.
Qed.

Lemma para_body_bounded (max_chars : Z) (st st' : state) (para : str) :
  bounded max_chars st -> para_body max_chars st para = Ok st' ->
  bounded max_chars st'.
Proof.
  intros Hst Hrun. pose proof (len_nonneg para) as Hn.
  destruct (Z.le_gt_cases (len para) max_chars) as [Hshort|Hlong]; cycle 1.
  - destruct (Z.lt_trichotomy max_chars 0) as [Hneg|[Hz|Hpos]].
    + rewrite para_body_negative in Hrun by exact Hneg. by injection Hrun as <-.
    + subst max_chars. rewrite para_body_zero in Hrun by lia. discriminate.
    + rewrite para_body_long in Hrun by lia. injection Hrun as <-.
      split; [|simpl; congruence]. simpl. apply Forall_app. split.
      * by apply bounded_flush.
      * apply Forall_lookup. intros j p Hj.
        by apply (pieces_lookup para max_chars j p Hpos) in Hj as [[_ ?] _].
  - rewrite para_body_short in Hrun by exact Hshort.
    destruct (Z.gtb_spec (len (current_chunk st) + len para + 2) max_chars)
      as [Hfull|Hroom]; injection Hrun as <-; split; simpl.
    + by apply bounded_flush.
    + intros _. exact Hshort.
    + apply Hst.
    + intros _. destruct (truthy (current_chunk st)); [|exact Hshort].
      rewrite len_app. unfold len in *. simpl length. lia.
Qed.

(** ** Invariant: no emitted chunk is empty *)

Lemma flush_nonempty (st : state) :
  Forall (fun c => c <> []) (chunks st) -> Forall (fun c => c <> []) (flush st).
Proof.
  intros Hcs. unfold flush.
  destruct (truthy (current_chunk st)) eqn:Ht; [|exact Hcs].
  apply Forall_app. split; [exact Hcs|].
  constructor; [|constructor]. by apply truthy_true.
Qed.

Lemma para_body_nonempty (max_chars : Z) (st st' : state) (para : str) :
  Forall (fun c => c <> []) (chunks st) ->
  para_body max_chars st para = Ok st' ->
  Forall (fun c => c <> []) (chunks st').
Proof.
  intros Hst Hrun. pose proof (len_nonneg para) as Hn.
  destruct (Z.le_gt_cases (len para) max_chars) as [Hshort|Hlong]; cycle 1.
  - destruct (Z.lt_trichotomy max_chars 0) as [Hneg|[Hz|Hpos]].
    + rewrite para_body_negative in Hrun by exact Hneg. by injection Hrun as <-.
    + subst max_chars. rewrite para_body_zero in Hrun by lia. discriminate.
    + rewrite para_body_long in Hrun by lia. injection Hrun as <-.
      simpl. apply Forall_app. split; [by apply flush_nonempty|].
      apply Forall_lookup. intros j p Hj.
      apply (pieces_lookup para max_chars j p Hpos) in Hj as [[Hlen _] _].
      intros ->. unfold len in Hlen. simpl in Hlen. lia.
  - rewrite para_body_short in Hrun by exact Hshort.
    destruct (_ >? max_chars); injection Hrun as <-; simpl.
    + by apply flush_nonempty.
    + exact Hst.
Qed.

(** ** Totality for a positive bound *)

Lemma para_body_total (max_chars : Z) (st : state) (para : str) :
  0 < max_chars -> exists st', para_body max_chars st para = Ok st'.
Proof.
  intros Hpos.
  destruct (Z.le_gt_cases (len para) max_chars) as [Hshort|Hlong].
  - rewrite para_body_short by exact Hshort.
    destruct (_ >? max_chars); eexists; reflexivity.
  - rewrite para_body_long by lia. eexists; reflexivity.
Qed.

Lemma split_into_chunk_total (text : str) (max_chars : Z) :
  0 < max_chars -> exists out, split_into_chunk text max_chars = Ok out.
Proof.
  intros Hpos. unfold split_into_chunk, chunk_paragraphs.
  destruct (for_each_total (para_body max_chars)
              (fun s x => para_body_total max_chars s x Hpos)
              (split_blank_line text) (State [] [])) as [st ->].
  eexists; reflexivity.
Qed.

End IngestionFacts.

(* ===================================================================== *)
(** * The chunker: bounds, hard splits, merging *)
(* ===================================================================== *)

Section Chunker.
Import Ingestion PyFacts IngestionFacts.

(** The run over [before ++ para :: after] passes through the state in
    which [para] is processed. *)
Lemma for_each_para_middle (max_chars : Z) (before after : list str) (para : str)
    (st st' : state) :
  for_each (para_body max_chars) (before ++ para :: after) st = Ok st' ->
  exists st1 st2,
    for_each (para_body max_chars) before st = Ok st1 /\
    para_body max_chars st1 para = Ok st2 /\
    for_each (para_body max_chars) after st2 = Ok st'.
Proof.
  rewrite for_each_app. intros Hrun.
  destruct (for_each (para_body max_chars) before st) as [st1|e]; [|discriminate].
  simpl in Hrun.
  destruct (para_body max_chars st1 para) as [st2|e] eqn:Hp; [|discriminate].
  exists st1, st2. auto.
Qed.

(** The windows of a long paragraph appear, together and in order, in
    the output. *)
Lemma hard_split_in_output (text : str) (max_chars : Z) (out : list str)
    (before after : list str) (para : str) :
  split_into_chunk text max_chars = Ok out ->
  0 < max_chars ->
  split_blank_line text = before ++ para :: after ->
  max_chars < len para ->
  exists pre post, out = pre ++ pieces para max_chars ++ post.
Proof.
  unfold split_into_chunk, chunk_paragraphs. intros Hrun Hpos Hsplit Hlong.
  rewrite Hsplit in Hrun.
  destruct (for_each _ _ _) as [st'|e] eqn:Hloop; [|discriminate].
  injection Hrun as <-.
  apply for_each_para_middle in Hloop as (st1 & st2 & _ & Hp & Hafter).
  rewrite para_body_long in Hp by lia. injection Hp as <-.
  apply for_each_para_extends in Hafter as [a1 Ha1]. simpl in Ha1.
  destruct (flush_extends st') as [a2 ->].
  exists (flush st1), (a1 ++ a2). rewrite Ha1, <- !app_assoc. reflexivity.
Qed.

(** The window lengths of a 250-character paragraph cut at 100. *)
Lemma pieces_250_100 (para : str) :
  len para = 250 -> List.map len (pieces para 100) = [100; 100; 50].
Proof.
  intros Hlen. unfold pieces. rewrite Hlen.
  change (ceil_div 250 100) with 3%nat. simpl.
  unfold len in *. rewrite !length_take, !length_drop.
  repeat f_equal; lia.
Qed.

(** C3. Whenever [split_into_chunk] returns, every chunk has at most
    [max_chars] characters (the hard-split slices included); for a
    positive [max_chars], a paragraph longer than [max_chars] is emitted
    as consecutive slices that concatenate back to it, each of exactly
    [max_chars] characters but the last, which is shorter or equal and
    not empty; a 250-character paragraph cut at 100 gives slices of
    100, 100 and 50 characters, in that order. *)
Theorem split_into_chunk_bounded (text : str) (max_chars : Z) (out : list str) :
  split_into_chunk text max_chars = Ok out ->
  Forall (fun c => len c <= max_chars) out /\
  (0 < max_chars ->
   forall before para after,
     split_blank_line text = before ++ para :: after ->
     max_chars < len para ->
     exists pre slices post,
       out = pre ++ slices ++ post /\
       concat slices = para /\
       (forall j p, slices !! j = Some p ->
          0 < len p <= max_chars /\
          ((j + 1 < length slices)%nat -> len p = max_chars)) /\
       (max_chars = 100 -> len para = 250 ->
          List.map len slices = [100; 100; 50])).
Proof.
  intros Hrun. split.
  - unfold split_into_chunk, chunk_paragraphs in Hrun.
    destruct (for_each _ _ _) as [st'|e] eqn:Hloop; [|discriminate].
    injection Hrun as <-. apply bounded_flush.
    eapply (for_each_invariant (bounded max_chars)); [| |exact Hloop].
    + intros s x s' _. apply para_body_bounded.
    + split; [constructor | simpl; congruence].
  - intros Hpos before para after Hsplit Hlong.
    destruct (hard_split_in_output _ _ _ _ _ _ Hrun Hpos Hsplit Hlong)
      as (pre & post & ->).
    exists pre, (pieces para max_chars), post.
    split; [reflexivity|]. split; [by apply pieces_concat|]. split.
    + intros j p Hj. by apply pieces_lookup.
    + intros -> Hlen. by apply pieces_250_100.
Qed.

Lemma split_into_chunk_bounded_witness :
  Forall (fun c => len c <= 100)
         [repeat 97%N 100; repeat 97%N 100; repeat 97%N 50] /\
  exists pre slices post,
    [repeat 97%N 100; repeat 97%N 100; repeat 97%N 50] = pre ++ slices ++ post /\
    concat slices = repeat 97%N 250 /\
    List.map len slices = [100; 100; 50].
Proof.
  destruct (split_into_chunk_bounded (repeat 97%N 250) 100
              [repeat 97%N 100; repeat 97%N 100; repeat 97%N 50])
    as [Hbound Hslices]; [vm_compute; reflexivity|].
  split; [exact Hbound|].
  destruct (Hslices ltac:(lia) [] (repeat 97%N 250) [])
    as (pre & slices & post & Hout & Hcat & _ & Hlens);
    [vm_compute; reflexivity | vm_compute; reflexivity |].
  exists pre, slices, post. split; [exact Hout|]. split; [exact Hcat|].
  apply Hlens; [reflexivity | vm_compute; reflexivity].
Defined.

(** C9. Whenever [split_into_chunk] returns, no chunk is the empty
    string; and it returns for every positive [max_chars]. *)
Theorem split_into_chunk_no_empty_chunk (text : str) (max_chars : Z) :
  (0 < max_chars -> exists out, split_into_chunk text max_chars = Ok out) /\
  (forall out, split_into_chunk text max_chars = Ok out ->
     Forall (fun c => c <> []) out).
Proof.
  split; [apply split_into_chunk_total|].
  unfold split_into_chunk, chunk_paragraphs. intros out Hrun.
  destruct (for_each _ _ _) as [st'|e] eqn:Hloop; [|discriminate].
  injection Hrun as <-. apply flush_nonempty.
  eapply (for_each_invariant (fun st => Forall (fun c => c <> []) (chunks st)));
    [| |exact Hloop].
  - intros s x s' _. apply para_body_nonempty.
  - constructor.
Qed.

Lemma split_into_chunk_no_empty_chunk_witness :
  Forall (fun c => c <> []) [str_of "ab"; str_of "cd"].
Proof.
  apply (proj2 (split_into_chunk_no_empty_chunk
                  (blank_line ++ str_of "ab" ++ blank_line ++ blank_line
                   ++ str_of "cd" ++ blank_line) 3)).
  reflexivity.
Defined.

(** C8, as the code has it. A text of exactly two paragraphs, the first
    not empty, whose lengths and the two characters of the separator fit
    in [max_chars], is the two paragraphs joined by the separator, and
    yields that text as its only chunk. *)
Theorem split_into_chunk_two_paragraphs (text p1 p2 : str) (max_chars : Z) :
  split_blank_line text = [p1; p2] ->
  p1 <> [] ->
  len p1 + len p2 + 2 <= max_chars ->
  text = p1 ++ blank_line ++ p2 /\
  split_into_chunk text max_chars = Ok [p1 ++ blank_line ++ p2].
Proof.
  intros Hsplit Hp1 Hfit. split.
  - rewrite <- (join_split_blank_line text), Hsplit. reflexivity.
  - pose proof (len_nonneg p1). pose proof (len_nonneg p2).
    assert (para_body max_chars (State [] []) p1 = Ok (State [] p1)) as Hfirst.
    { rewrite para_body_short by lia.
      destruct (_ >? max_chars); reflexivity. }
    assert (para_body max_chars (State [] p1) p2
            = Ok (State [] (p1 ++ blank_line ++ p2))) as Hsecond.
    { rewrite para_body_short by lia. simpl.
      destruct (Z.gtb_spec (len p1 + len p2 + 2) max_chars); [lia|].
      destruct p1; [congruence | reflexivity]. }
    unfold split_into_chunk, chunk_paragraphs. rewrite Hsplit.
    rewrite for_each_cons, Hfirst, bind_Ok, for_each_cons, Hsecond, bind_Ok.
    rewrite for_each_nil, bind_Ok.
    unfold flush. destruct p1; [congruence | reflexivity].
Qed.

Lemma split_into_chunk_two_paragraphs_witness :
  str_of "abcd" ++ blank_line ++ str_of "efgh"
  = str_of "abcd" ++ blank_line ++ str_of "efgh" /\
  split_into_chunk (str_of "abcd" ++ blank_line ++ str_of "efgh") 10
  = Ok [str_of "abcd" ++ blank_line ++ str_of "efgh"].
Proof.
  apply (split_into_chunk_two_paragraphs
           (str_of "abcd" ++ blank_line ++ str_of "efgh")
           (str_of "abcd") (str_of "efgh") 10).
  - reflexivity.
  - discriminate.
  - vm_compute. discriminate.
Defined.

(** Two paragraphs of 4 and 5 characters total 9 < 10, and come out as
    two chunks: the separator would make the merged chunk 11 long. And
    after an empty first paragraph no separator is written. *)
Lemma split_into_chunk_two_paragraphs_counterexample :
  (split_blank_line (str_of "abcd" ++ blank_line ++ str_of "efghi")
   = [str_of "abcd"; str_of "efghi"] /\
   len (str_of "abcd") + len (str_of "efghi") < 10 /\
   split_into_chunk (str_of "abcd" ++ blank_line ++ str_of "efghi") 10
   = Ok [str_of "abcd"; str_of "efghi"] /\
   split_into_chunk (str_of "abcd" ++ blank_line ++ str_of "efghi") 10
   <> Ok [str_of "abcd" ++ blank_line ++ str_of "efghi"]) /\
  (split_blank_line (blank_line ++ str_of "abc") = [[]; str_of "abc"] /\
   len ([] : str) + len (str_of "abc") < 100 /\
   split_into_chunk (blank_line ++ str_of "abc") 100 = Ok [str_of "abc"] /\
   split_into_chunk (blank_line ++ str_of "abc") 100
   <> Ok [[] ++ blank_line ++ str_of "abc"]).
Proof.
  split; (split; [reflexivity|]; split; [reflexivity|];
          split; [reflexivity | discriminate]).
Qed.

End Chunker.

(* ===================================================================== *)
(** * The corpus indexer: alignment and the empty corpus *)
(* ===================================================================== *)

Module EmbedIndexFacts.
Import Ingestion SentenceTransformer FaissIndex EmbedIndex PyFacts IngestionFacts.

Lemma fold_append_chunk (doc_name : str) (cs : list str) (acc : corpus) :
  fold_left (append_chunk doc_name) (enumerate cs) acc
  = (acc.1 ++ cs, acc.2 ++ imap (fun i _ => (doc_name, Z.of_nat i)) cs).
Proof.
  unfold enumerate. induction cs as [|c cs IH] using rev_ind.
  - simpl. rewrite !app_nil_r. by destruct acc.
  - rewrite !imap_app, fold_left_app, IH. simpl.
    unfold append_chunk. simpl. rewrite <- !app_assoc. reflexivity.
Qed.

Lemma chunk_document_eq (acc : corpus) (doc : str * str) :
  chunk_document acc doc = Ok (acc.1 ++ doc_chunks doc, acc.2 ++ doc_metadata doc).
Proof.
  unfold chunk_document, doc_metadata, doc_chunks.
  destruct (split_into_chunk_total doc.2 default_max_chars) as [cs ->];
    [reflexivity|].
  rewrite bind_Ok, fold_append_chunk. reflexivity.
Qed.

Lemma for_each_chunk_document (documents : list (str * str)) (acc : corpus) :
  for_each chunk_document documents acc
  = Ok (acc.1 ++ corpus_chunks documents, acc.2 ++ corpus_metadata documents).
Proof.
  revert acc. induction documents as [|doc documents IH]; intros acc.
  - simpl. rewrite !app_nil_r. by destruct acc.
  - rewrite for_each_cons, chunk_document_eq, bind_Ok, IH. simpl.
    unfold corpus_chunks, corpus_metadata. simpl.
    rewrite <- !app_assoc. reflexivity.
Qed.

Lemma encode_rows_dim (E : Embedder) (texts : list str) (dim : Z) :
  dim = Z.of_nat (emb_dim E) ->
  forallb (fun row => len row =? dim) (encode E texts) = true.
Proof.
  intros ->. apply forallb_forall. intros row Hin.
  apply in_map_iff in Hin as (t & <- & _).
  unfold len. rewrite embed_text_dim. apply Z.eqb_refl.
Qed.

(** What the build returns, in closed form. *)
Lemma building_embedding_index_eq (E : Embedder) (documents : list (str * str)) :
  building_embedding_index E documents
  = match corpus_chunks documents with
    | [] => Raise IndexError
    | _ :: _ =>
      Ok {| index_file := {| d := Z.of_nat (emb_dim E);
                             xb := encode E (corpus_chunks documents) |};
            meta_chunks := corpus_chunks documents;
            meta_metadata := corpus_metadata documents |}
    end.
Proof.
  unfold building_embedding_index.
  rewrite for_each_chunk_document, bind_Ok. simpl.
  destruct (corpus_chunks documents) as [|c cs] eqn:Hcs; [reflexivity|].
  simpl shape1. rewrite bind_Ok. unfold add, new. simpl d. simpl xb.
  replace (len (embed_text E c)) with (Z.of_nat (emb_dim E))
    by (unfold len; by rewrite embed_text_dim).
  rewrite encode_rows_dim by reflexivity. reflexivity.
Qed.

Lemma corpus_lengths (documents : list (str * str)) :
  length (corpus_metadata documents) = length (corpus_chunks documents).
Proof.
  unfold corpus_metadata, corpus_chunks.
  induction documents as [|doc documents IH]; [reflexivity|].
  simpl. rewrite !length_app, IH. unfold doc_metadata.
  rewrite length_imap. reflexivity.
Qed.

(** Position [i] of the chunk list and of the metadata list name the
    same chunk of the same document. *)
Lemma corpus_lookup (documents : list (str * str)) (i : nat) (c : str) :
  corpus_chunks documents !! i = Some c ->
  exists doc j,
    doc ∈ documents /\
    doc_chunks doc !! j = Some c /\
    corpus_metadata documents !! i = Some (doc.1, Z.of_nat j).
Proof.
  unfold corpus_chunks, corpus_metadata. revert i.
  induction documents as [|doc documents IH]; intros i Hi; [discriminate|].
  simpl in *. destruct (decide (i < length (doc_chunks doc))%nat) as [Hlt|Hge].
  - rewrite lookup_app_l in Hi by exact Hlt.
    exists doc, i. split; [left|]. split; [exact Hi|].
    rewrite lookup_app_l by (unfold doc_metadata; rewrite length_imap; lia).
    unfold doc_metadata. rewrite list_lookup_imap, Hi. reflexivity.
  - rewrite lookup_app_r in Hi by lia.
    destruct (IH _ Hi) as (doc' & j & Hin & Hj & Hm).
    exists doc', j. split; [by right|]. split; [exact Hj|].
    rewrite lookup_app_r by (unfold doc_metadata; rewrite length_imap; lia).
    unfold doc_metadata at 1. rewrite length_imap. exact Hm.
Qed.

Lemma corpus_chunks_nil (documents : list (str * str)) :
  (forall doc, doc ∈ documents ->
     split_into_chunk doc.2 default_max_chars = Ok []) ->
  corpus_chunks documents = [].
Proof.
  unfold corpus_chunks. induction documents as [|doc documents IH]; intros Hall.
  - reflexivity.
  - simpl. unfold doc_chunks at 1. rewrite (Hall doc) by left. simpl.
    apply IH. intros ? ?. apply Hall. by right.
Qed.

Lemma corpus_chunks_elem (documents : list (str * str)) (doc : str * str) (c : str) :
  doc ∈ documents -> c ∈ doc_chunks doc -> c ∈ corpus_chunks documents.
Proof.
  intros Hdoc Hc. unfold corpus_chunks.
  apply list_elem_of_In, in_concat. exists (doc_chunks doc).
  split; [|by apply list_elem_of_In].
  apply in_map. by apply list_elem_of_In.
Qed.

End EmbedIndexFacts.

Section Indexer.
Import Ingestion SentenceTransformer FaissIndex EmbedIndex.
Import PyFacts IngestionFacts EmbedIndexFacts.

(** C1. The build succeeds as soon as one document yields a chunk, and
    whenever it succeeds the chunk list, the metadata list and the
    stored vectors have the same length, and at every position [i] the
    stored vector is the embedding of chunk [i] while metadata [i] is
    the document that chunk comes from and its rank among the chunks of
    that document. *)
Theorem building_embedding_index_aligned (E : Embedder)
    (documents : list (str * str)) :
  ((exists doc cs c,
      doc ∈ documents /\
      split_into_chunk doc.2 default_max_chars = Ok cs /\ c ∈ cs) ->
   exists out, building_embedding_index E documents = Ok out) /\
  (forall out, building_embedding_index E documents = Ok out ->
     len (meta_metadata out) = len (meta_chunks out) /\
     ntotal (index_file out) = len (meta_chunks out) /\
     forall i c, meta_chunks out !! i = Some c ->
       xb (index_file out) !! i = Some (embed_text E c) /\
       exists doc_name content cs idx,
         meta_metadata out !! i = Some (doc_name, idx) /\
         (doc_name, content) ∈ documents /\
         split_into_chunk content default_max_chars = Ok cs /\
         0 <= idx /\ cs !! Z.to_nat idx = Some c).
Proof.
  rewrite building_embedding_index_eq. split.
  - intros (doc & cs & c & Hdoc & Hcs & Hc).
    assert (c ∈ corpus_chunks documents) as Hin.
    { apply (corpus_chunks_elem documents doc); [exact Hdoc|].
      unfold doc_chunks. by rewrite Hcs. }
    destruct (corpus_chunks documents); [by apply elem_of_nil in Hin|].
    eexists; reflexivity.
  - intros out Hout.
    destruct (corpus_chunks documents) as [|c0 cs0] eqn:Hcs; [discriminate|].
    rewrite <- Hcs in Hout. injection Hout as <-. simpl. clear c0 cs0 Hcs.
    unfold ntotal, len. simpl. unfold encode.
    rewrite length_map, corpus_lengths.
    split; [reflexivity|]. split; [reflexivity|].
    intros i c Hi. split.
    + change (List.map (embed_text E) (corpus_chunks documents))
        with (embed_text E <$> corpus_chunks documents).
      rewrite list_lookup_fmap, Hi. reflexivity.
    + destruct (corpus_lookup documents i c Hi) as ([name content] & j & Hin & Hj & Hm).
      unfold doc_chunks in Hj. simpl in Hj.
      destruct (split_into_chunk content default_max_chars) as [cs|e] eqn:Hsplit;
        [|discriminate].
      exists name, content, cs, (Z.of_nat j).
      rewrite Nat2Z.id. repeat split; try assumption. lia.
Qed.

Lemma building_embedding_index_aligned_witness :
  exists out,
    building_embedding_index Doubles.length_embedder
      [(str_of "a.txt", str_of "hello" ++ blank_line ++ str_of "world");
       (str_of "b.txt", repeat 98%N 250)] = Ok out.
Proof.
  apply (proj1 (building_embedding_index_aligned Doubles.length_embedder _)).
  exists (str_of "a.txt", str_of "hello" ++ blank_line ++ str_of "world").
  exists [str_of "hello" ++ blank_line ++ str_of "world"].
  exists (str_of "hello" ++ blank_line ++ str_of "world").
  split; [left|]. split; [reflexivity | left].
Defined.

(** C5. With no document at all, or when no document yields a chunk, the
    build raises (the [IndexError] of [embeddings.shape[1]]) before any
    index is created or written. *)
Theorem building_embedding_index_empty_corpus (E : Embedder)
    (documents : list (str * str)) :
  documents = [] \/
  (forall doc, doc ∈ documents ->
     split_into_chunk doc.2 default_max_chars = Ok []) ->
  building_embedding_index E documents = Raise IndexError.
Proof.
  intros Hempty. rewrite building_embedding_index_eq.
  rewrite corpus_chunks_nil; [reflexivity|].
  destruct Hempty as [-> | Hall]; [|exact Hall].
  intros doc Hdoc. by apply elem_of_nil in Hdoc.
Qed.

Lemma building_embedding_index_empty_corpus_witness :
  building_embedding_index Doubles.length_embedder [] = Raise IndexError /\
  building_embedding_index Doubles.length_embedder
    [(str_of "a.txt", []); (str_of "b.txt", blank_line)] = Raise IndexError.
Proof.
  split.
  - apply (building_embedding_index_empty_corpus Doubles.length_embedder []).
    left. reflexivity.
  - apply (building_embedding_index_empty_corpus Doubles.length_embedder
             [(str_of "a.txt", []); (str_of "b.txt", blank_line)]).
    right. intros doc Hdoc.
    apply elem_of_cons in Hdoc as [-> | Hdoc]; [reflexivity|].
    apply elem_of_cons in Hdoc as [-> | Hdoc]; [reflexivity|].
    by apply elem_of_nil in Hdoc.
Defined.

End Indexer.

(* ===================================================================== *)
(** * Retrieval: the labels of a search and the filtering loop *)
(* ===================================================================== *)

Module ApiFacts.
Import SentenceTransformer FaissIndex Api PyFacts.

Lemma py_index_Ok {A : Type} (l : list A) (i : Z) (x : A) :
  0 <= i -> py_index l i = Ok x -> l !! Z.to_nat i = Some x.
Proof.
  intros Hi. unfold py_index.
  destruct (Z.ltb_spec i 0); [lia|]. destruct (Z.ltb_spec i 0); [lia|].
  destruct (l !! Z.to_nat i); [|discriminate]. by intros [= ->].
Qed.

Lemma py_index_in_range {A : Type} (l : list A) (i : Z) :
  0 <= i < len l -> exists x, py_index l i = Ok x /\ l !! Z.to_nat i = Some x.
Proof.
  intros Hi. unfold py_index.
  destruct (Z.ltb_spec i 0); [lia|]. destruct (Z.ltb_spec i 0); [lia|].
  destruct (lookup_lt_is_Some_2 l (Z.to_nat i)) as [x Hx];
    [unfold len in Hi; lia|].
  rewrite Hx. eauto.
Qed.

Lemma pick_eq {A : Type} (l : list A) (n idx : Z) :
  pick l n idx = if (0 <=? idx) && (idx <? n) then l !! Z.to_nat idx else None.
Proof. reflexivity. Qed.

Lemma omap_cons {A B : Type} (f : A -> option B) (x : A) (l : list A) :
  omap f (x :: l) = match f x with Some y => y :: omap f l | None => omap f l end.
Proof. reflexivity. Qed.

(** The loop keeps, in order, what the in-range labels designate. *)
Lemma for_each_retrieve_body (st : store) (labels : list Z)
    (acc acc' : list str * list (str * Z)) :
  for_each (retrieve_body st) labels acc = Ok acc' ->
  acc'.1 = acc.1 ++ omap (pick (chunks_texts st) (len (chunks_texts st))) labels /\
  acc'.2 = acc.2 ++ omap (pick (chunks_meta st) (len (chunks_texts st))) labels.
Proof.
  revert acc. induction labels as [|idx labels IH]; intros acc Hrun.
  - injection Hrun as <-. simpl. by rewrite !app_nil_r.
  - rewrite for_each_cons in Hrun.
    destruct (retrieve_body st acc idx) as [acc1|e] eqn:Hbody; [|discriminate].
    rewrite bind_Ok in Hrun. apply IH in Hrun as [-> ->].
    unfold retrieve_body in Hbody. rewrite !omap_cons, !(pick_eq _ _ idx).
    destruct ((0 <=? idx) && (idx <? len (chunks_texts st))) eqn:Hin.
    + apply andb_true_iff in Hin as [Hlo _]. apply Z.leb_le in Hlo.
      destruct (py_index (chunks_texts st) idx) as [text|e] eqn:Ht; [|discriminate].
      destruct (py_index (chunks_meta st) idx) as [meta|e] eqn:Hm; [|discriminate].
      injection Hbody as <-. simpl fst. simpl snd.
      rewrite (py_index_Ok _ _ _ Hlo Ht), (py_index_Ok _ _ _ Hlo Hm).
      rewrite <- !app_assoc. split; reflexivity.
    + injection Hbody as <-. split; reflexivity.
Qed.

(** With as many metadata entries as chunks, the loop never raises. *)
Lemma retrieve_body_total (st : store) (acc : list str * list (str * Z)) (idx : Z) :
  len (chunks_meta st) = len (chunks_texts st) ->
  exists acc', retrieve_body st acc idx = Ok acc'.
Proof.
  intros Hlen. unfold retrieve_body.
  destruct ((0 <=? idx) && (idx <? len (chunks_texts st))) eqn:Hin;
    [|eexists; reflexivity].
  apply andb_true_iff in Hin as [Hlo Hhi].
  apply Z.leb_le in Hlo. apply Z.ltb_lt in Hhi.
  destruct (py_index_in_range (chunks_texts st) idx) as (t & -> & _); [lia|].
  destruct (py_index_in_range (chunks_meta st) idx) as (m & -> & _); [lia|].
  eexists; reflexivity.
Qed.

Lemma for_each_retrieve_body_total (st : store) (labels : list Z)
    (acc : list str * list (str * Z)) :
  len (chunks_meta st) = len (chunks_texts st) ->
  exists acc', for_each (retrieve_body st) labels acc = Ok acc'.
Proof.
  intros Hlen. apply for_each_total. intros s x.
  by apply retrieve_body_total.
Qed.

Lemma designated_weaken (st : store) (idx : Z) (labels : list Z)
    (texts : list str) (metas : list (str * Z)) :
  Forall2 (designated st labels) texts metas ->
  Forall2 (designated st (idx :: labels)) texts metas.
Proof.
  intros Hpairs. eapply Forall2_impl; [exact Hpairs|].
  intros t m (i & Hi & Hr). exists i. split; [by right | exact Hr].
Qed.

Lemma for_each_retrieve_body_pairs (st : store) (labels : list Z)
    (acc acc' : list str * list (str * Z)) :
  for_each (retrieve_body st) labels acc = Ok acc' ->
  exists texts metas,
    acc' = (acc.1 ++ texts, acc.2 ++ metas) /\
    (length texts <= length labels)%nat /\
    Forall2 (designated st labels) texts metas.
Proof.
  revert acc. induction labels as [|idx labels IH]; intros acc Hrun.
  - injection Hrun as <-. exists [], []. rewrite !app_nil_r.
    split; [by destruct acc|]. split; [reflexivity | constructor].
  - rewrite for_each_cons in Hrun.
    destruct (retrieve_body st acc idx) as [acc1|e] eqn:Hbody; [|discriminate].
    rewrite bind_Ok in Hrun.
    apply IH in Hrun as (texts & metas & -> & Hlen & Hpairs).
    apply (designated_weaken st idx) in Hpairs.
    unfold retrieve_body in Hbody.
    destruct ((0 <=? idx) && (idx <? len (chunks_texts st))) eqn:Hin.
    + apply andb_true_iff in Hin as [Hlo Hhi].
      apply Z.leb_le in Hlo. apply Z.ltb_lt in Hhi.
      destruct (py_index (chunks_texts st) idx) as [text|e] eqn:Ht; [|discriminate].
      destruct (py_index (chunks_meta st) idx) as [meta|e] eqn:Hm; [|discriminate].
      injection Hbody as <-. simpl.
      exists (text :: texts), (meta :: metas). rewrite <- !app_assoc.
      split; [reflexivity|]. split; [simpl; lia|].
      constructor; [|exact Hpairs].
      exists idx. split; [left|]. split; [lia|].
      split; eapply py_index_Ok; eassumption.
    + injection Hbody as <-. exists texts, metas.
      split; [reflexivity|]. split; [simpl; lia | exact Hpairs].
Qed.

(** ** The search *)

Lemma insert_hit_perm (h : float * Z) (hs : list (float * Z)) :
  insert_hit h hs ≡ₚ h :: hs.
Proof.
  induction hs as [|h' hs IH]; simpl; [reflexivity|].
  destruct (PrimFloat.leb h.1 h'.1); [reflexivity|].
  rewrite IH. apply perm_swap.
Qed.

Lemma foldr_insert_hit_perm (hs : list (float * Z)) :
  foldr insert_hit [] hs ≡ₚ hs.
Proof.
  induction hs as [|h hs IH]; simpl; [reflexivity|].
  rewrite insert_hit_perm, IH. reflexivity.
Qed.

(** The labels of the ranking are the positions of the stored vectors,
    each exactly once. *)
Lemma ranked_labels (F : Faiss) (index : IndexFlatL2) (q : vec) :
  (ranked F index q).*2 ≡ₚ Z.of_nat <$> seq 0 (length (xb index)).
Proof.
  unfold ranked. rewrite foldr_insert_hit_perm.
  rewrite fmap_imap, <- imap_seq_0. reflexivity.
Qed.

Lemma ranked_length (F : Faiss) (index : IndexFlatL2) (q : vec) :
  length (ranked F index q) = length (xb index).
Proof.
  rewrite <- (length_fmap snd), ranked_labels, length_fmap, length_seq.
  reflexivity.
Qed.

(** A search row has [k] labels. *)
Lemma search_row_length (F : Faiss) (index : IndexFlatL2) (k : Z) (q : vec) :
  len (search_row F index k q).2 = Z.max k 0.
Proof.
  unfold search_row, len. simpl.
  rewrite length_app, length_map, repeat_length, length_take. lia.
Qed.

(** When [k] is at least the number of stored vectors, a row is every
    stored position once, then the padding. *)
Lemma search_row_all (F : Faiss) (index : IndexFlatL2) (k : Z) (q : vec) :
  ntotal index <= k ->
  exists labels,
    (search_row F index k q).2
    = labels ++ repeat (-1) (Z.to_nat (k - ntotal index)) /\
    labels ≡ₚ Z.of_nat <$> seq 0 (length (xb index)).
Proof.
  unfold ntotal, len. intros Hk. exists ((ranked F index q).*2).
  split; [|apply ranked_labels].
  unfold search_row. simpl.
  rewrite take_ge by (rewrite ranked_length; lia).
  rewrite ranked_length. do 2 f_equal. lia.
Qed.

(** ** Picking every position of a list gives the list back *)

Lemma pick_in_range {A : Type} (l : list A) (n idx : Z) :
  0 <= idx < n -> pick l n idx = l !! Z.to_nat idx.
Proof.
  intros Hidx. unfold pick.
  destruct (Z.leb_spec 0 idx); [|lia]. destruct (Z.ltb_spec idx n); [|lia].
  reflexivity.
Qed.

Lemma omap_pick_all {A : Type} (l : list A) :
  omap (pick l (len l)) (Z.of_nat <$> seq 0 (length l)) = l.
Proof.
  induction l as [|x l IH] using rev_ind; [reflexivity|].
  rewrite length_app. simpl length. rewrite Nat.add_1_r, seq_S, fmap_app, omap_app.
  rewrite Nat.add_0_l. f_equal.
  - etrans; [|exact IH]. apply list_omap_ext.
    apply Forall2_same_length_lookup. split; [reflexivity|].
    intros i a b Ha Hb. rewrite Ha in Hb. injection Hb as <-.
    rewrite list_lookup_fmap in Ha.
    destruct (seq 0 (length l) !! i) as [j|] eqn:Hj; [|discriminate].
    apply lookup_seq in Hj as [-> Hlt]. injection Ha as <-.
    rewrite !pick_in_range by (unfold len; rewrite ?length_app; simpl; lia).
    rewrite Nat2Z.id. apply lookup_app_l. exact Hlt.
  - simpl. rewrite pick_in_range
      by (unfold len; rewrite ?length_app; simpl; lia).
    rewrite Nat2Z.id, list_lookup_middle by reflexivity. reflexivity.
Qed.

Lemma omap_pick_padding {A : Type} (l : list A) (n : Z) (pad : nat) :
  omap (pick l n) (repeat (-1) pad) = [].
Proof. induction pad as [|pad IH]; [reflexivity | exact IH]. Qed.

End ApiFacts.

Section Retriever.
Import SentenceTransformer FaissIndex Api PyFacts ApiFacts.
Import EmbedIndexFacts.

Context (E : Embedder) (F : Faiss) (st : store).

(** A query that returns has searched with a positive [k] and filtered
    the one row of labels. *)
Lemma retrieve_top_k_chunks_Ok (query : str) (k : Z)
    (r : list str * list (str * Z)) :
  retrieve_top_k_chunks E F st query k = Ok r ->
  0 < k /\
  for_each (retrieve_body st)
    (search_row F (index st) k (embed_text E query)).2 ([], []) = Ok r.
Proof.
  unfold retrieve_top_k_chunks, search. intros Hrun.
  destruct (Z.leb_spec k 0); [discriminate|].
  destruct (forallb _ _); [|discriminate].
  split; [lia | exact Hrun].
Qed.

Lemma retrieve_top_k_chunks_run (query : str) (k : Z) :
  0 < k -> d (index st) = Z.of_nat (emb_dim E) ->
  retrieve_top_k_chunks E F st query k
  = for_each (retrieve_body st)
      (search_row F (index st) k (embed_text E query)).2 ([], []).
Proof.
  intros Hk Hd. unfold retrieve_top_k_chunks, search.
  destruct (Z.leb_spec k 0); [lia|].
  rewrite encode_rows_dim by exact Hd. reflexivity.
Qed.

(** When [k] covers the whole index and the three stores have the same
    length, a query returns every chunk once. *)
Lemma retrieve_top_k_chunks_all (query : str) (k : Z) :
  0 < k -> d (index st) = Z.of_nat (emb_dim E) ->
  ntotal (index st) <= k ->
  len (chunks_texts st) = ntotal (index st) ->
  len (chunks_meta st) = ntotal (index st) ->
  exists texts metas,
    retrieve_top_k_chunks E F st query k = Ok (texts, metas) /\
    texts ≡ₚ chunks_texts st /\ metas ≡ₚ chunks_meta st.
Proof.
  intros Hk Hd Hcover Htexts Hmetas.
  rewrite retrieve_top_k_chunks_run by assumption.
  destruct (for_each_retrieve_body_total st
              (search_row F (index st) k (embed_text E query)).2 ([], []))
    as [[texts metas] Hrun]; [congruence|].
  exists texts, metas. split; [exact Hrun|].
  apply for_each_retrieve_body in Hrun as [Ht Hm].
  cbn [fst snd app] in Ht, Hm. subst texts metas.
  destruct (search_row_all F (index st) k (embed_text E query) Hcover)
    as (labels & -> & Hperm).
  rewrite !omap_app, !omap_pick_padding, !app_nil_r, !Hperm.
  unfold ntotal, len in *.
  replace (length (xb (index st))) with (length (chunks_texts st)) at 1 by lia.
  replace (length (xb (index st))) with (length (chunks_meta st)) by lia.
  replace (Z.of_nat (length (chunks_texts st)))
    with (Z.of_nat (length (chunks_meta st))) at 2 by lia.
  unfold len. split.
  - fold (len (chunks_texts st)). by rewrite omap_pick_all.
  - fold (len (chunks_meta st)). by rewrite omap_pick_all.
Qed.

(** C4. A query that returns gives at most [k] texts, paired with as
    many metadata entries; each pair is the chunk and the metadata at a
    label of the search that lies within the chunk list (the other
    labels are skipped). With [k = 5] against three stored vectors, three
    chunks and three metadata entries, it returns exactly three pairs:
    every chunk, once. *)
Theorem retrieve_top_k_chunks_at_most_k (query : str) (k : Z) :
  (forall texts metas,
     retrieve_top_k_chunks E F st query k = Ok (texts, metas) ->
     len texts <= k /\
     Forall2 (fun text meta =>
                exists idx,
                  idx ∈ (search_row F (index st) k (embed_text E query)).2 /\
                  0 <= idx < len (chunks_texts st) /\
                  chunks_texts st !! Z.to_nat idx = Some text /\
                  chunks_meta st !! Z.to_nat idx = Some meta)
             texts metas) /\
  (k = 5 ->
   d (index st) = Z.of_nat (emb_dim E) ->
   ntotal (index st) = 3 ->
   len (chunks_texts st) = 3 ->
   len (chunks_meta st) = 3 ->
   exists texts metas,
     retrieve_top_k_chunks E F st query k = Ok (texts, metas) /\
     len texts = 3 /\ len metas = 3 /\
     texts ≡ₚ chunks_texts st /\ metas ≡ₚ chunks_meta st).
Proof.
  split.
  - intros texts metas Hrun.
    apply retrieve_top_k_chunks_Ok in Hrun as [Hk Hrun].
    apply for_each_retrieve_body_pairs in Hrun
      as (texts' & metas' & Heq & Hlen & Hpairs).
    simpl in Heq. injection Heq as -> ->. split; [|exact Hpairs].
    pose proof (search_row_length F (index st) k (embed_text E query)) as Hrow.
    unfold len in *. lia.
  - intros -> Hd Hn Htexts Hmetas.
    destruct (retrieve_top_k_chunks_all query 5)
      as (texts & metas & Hrun & Hpt & Hpm); try lia.
    exists texts, metas. split; [exact Hrun|].
    unfold len in *. rewrite Hpt, Hpm. auto.
Qed.

End Retriever.

(** The artifacts of a successful build, loaded as the store of the
    service, meet the conditions under which a query returns every
    chunk. *)
Lemma built_store_aligned (E : Embedder) (documents : list (str * str))
    (out : EmbedIndex.artifacts) :
  EmbedIndex.building_embedding_index E documents = Ok out ->
  FaissIndex.d (EmbedIndex.index_file out) = Z.of_nat (emb_dim E) /\
  len (EmbedIndex.meta_chunks out) = FaissIndex.ntotal (EmbedIndex.index_file out) /\
  len (EmbedIndex.meta_metadata out)
  = FaissIndex.ntotal (EmbedIndex.index_file out).
Proof.
  rewrite EmbedIndexFacts.building_embedding_index_eq.
  destruct (corpus_chunks documents) as [|c cs] eqn:Hcs; [discriminate|].
  rewrite <- Hcs. intros [= <-]. simpl.
  unfold FaissIndex.ntotal, len, SentenceTransformer.encode. simpl.
  rewrite length_map, EmbedIndexFacts.corpus_lengths. auto.
Qed.

(** Five neighbours asked of the three-chunk store. *)
Lemma retrieve_top_k_chunks_at_most_k_witness :
  exists texts metas,
    Api.retrieve_top_k_chunks Doubles.length_embedder Doubles.naive_faiss
      Doubles.three_chunks (str_of "abc") 5 = Ok (texts, metas) /\
    len texts = 3 /\ len metas = 3 /\
    texts ≡ₚ Api.chunks_texts Doubles.three_chunks /\
    metas ≡ₚ Api.chunks_meta Doubles.three_chunks.
Proof.
  apply (proj2 (retrieve_top_k_chunks_at_most_k Doubles.length_embedder
                  Doubles.naive_faiss Doubles.three_chunks (str_of "abc") 5));
    reflexivity.
Defined.

(* ===================================================================== *)
(** * Floating-point comparisons *)
(* ===================================================================== *)

Module FloatFacts.









End FloatFacts.

(* ===================================================================== *)
(** * The grounding validator *)
(* ===================================================================== *)

Module ValidateFacts.
Import SentenceTransformer ValidateAgent PyFacts.

Lemma eff_bind_Ok {A B : Type} (tr : list event) (a : A) (f : A -> Eff B) :
  ((tr, Ok a) ≫= f) = (tr ++ (f a).1, (f a).2).
Proof. reflexivity. Qed.

Lemma eff_for_each_cons {S A : Type} (body : S -> A -> Eff S) (x : A)
    (xs : list A) (s : S) :
  for_each body (x :: xs) s = (body s x ≫= for_each body xs).
Proof. reflexivity. Qed.

(** The test [np.all(a == 0)] holds of a zero vector. *)
Lemma all_zero_zero_vector (a : vec) : zero_vector a -> all_zero a = true.
Proof.
  unfold zero_vector, all_zero. intros Hzero.
  apply forallb_forall. intros x Hx.
  apply list_elem_of_In in Hx.
  rewrite Forall_forall in Hzero.
  destruct (Hzero x Hx) as [-> | ->]; reflexivity.
Qed.

(** The cosine of two vectors of the same length is defined. *)
Lemma cosine_similarity_total (NP : NumPy) (a b : vec) :
  length a = length b -> exists s, cosine_similarity NP a b = Ok s.
Proof.
  intros Hlen. unfold cosine_similarity, np_dot, len.
  destruct (all_zero a || all_zero b); [eexists; reflexivity|].
  rewrite Hlen, Z.eqb_refl. eexists; reflexivity.
Qed.

Lemma sims_body_Ok (NP : NumPy) (resp_emb emb : vec) (sims : list float)
    (s : float) :
  cosine_similarity NP resp_emb emb = Ok s ->
  sims_body NP resp_emb sims emb = ([Cosine resp_emb emb], Ok (sims ++ [s])).
Proof. intros Hs. unfold sims_body, call_cosine. rewrite Hs. reflexivity. Qed.

(** The loop over the chunk embeddings: one [Cosine] call and one
    similarity per embedding, in order. *)
Lemma for_each_sims_body (NP : NumPy) (resp_emb : vec) (embs : list vec)
    (sims0 : list float) :
  Forall (fun emb => length emb = length resp_emb) embs ->
  exists sims,
    Forall2 (fun emb s => cosine_similarity NP resp_emb emb = Ok s) embs sims /\
    for_each (sims_body NP resp_emb) embs sims0
    = (Cosine resp_emb <$> embs, Ok (sims0 ++ sims)).
Proof.
  intros Hdims. revert sims0.
  induction Hdims as [|emb embs Hemb _ IH]; intros sims0.
  - exists []. split; [constructor|]. simpl. by rewrite app_nil_r.
  - destruct (cosine_similarity_total NP resp_emb emb) as [s Hs]; [by symmetry|].
    destruct (IH (sims0 ++ [s])) as (sims & Hsims & Hrun).
    exists (s :: sims). split; [by constructor|].
    rewrite eff_for_each_cons, (sims_body_Ok _ _ _ _ _ Hs), eff_bind_Ok, Hrun.
    simpl. rewrite <- app_assoc. reflexivity.
Qed.

(** A run that passes the length gate, in closed form. *)
Lemma validate_llm_output_grounding (E : Embedder) (NP : NumPy)
    (llm_output question : str) (retrieved_texts : list str) :
  len llm_output <= MAX_CHARS ->
  exists sims,
    Forall2 (fun text s =>
               cosine_similarity NP (embed_text E llm_output) (embed_text E text)
               = Ok s)
            retrieved_texts sims /\
    validate_llm_output E NP llm_output question retrieved_texts
    = ([Encode [llm_output]; Encode retrieved_texts]
         ++ (Cosine (embed_text E llm_output) <$> encode E retrieved_texts),
       Ok (if PrimFloat.ltb (average NP sims) SIMILARITY_THRESHOLD
           then (false,
                 grounding_info (average NP sims) sims
                   (LowSimilarity (average NP sims) SIMILARITY_THRESHOLD))
           else (true, grounding_info (average NP sims) sims Success))).
Proof.
  intros Hlen.
  destruct (for_each_sims_body NP (embed_text E llm_output)
              (encode E retrieved_texts) []) as (sims & Hsims & Hrun).
  { apply Forall_forall. intros emb Hin.
    apply list_elem_of_In, in_map_iff in Hin as (t & <- & _).
    by rewrite !embed_text_dim. }
  exists sims. split.
  { unfold encode in Hsims. by apply Forall2_fmap_l in Hsims. }
  unfold validate_llm_output.
  destruct (Z.gtb_spec (len llm_output) MAX_CHARS); [lia|].
  unfold call_encode, lift, mbind, Eff_bind, mret, Eff_ret in Hrun |- *.
  cbn [fst snd].
  change (py_index (encode E [llm_output]) 0) with (Ok (embed_text E llm_output)).
  cbn [fst snd]. rewrite Hrun. cbn [fst snd app].
  unfold grounding_info.
  destruct (PrimFloat.ltb (average NP sims) SIMILARITY_THRESHOLD);
    cbn [fst snd]; rewrite app_nil_r; reflexivity.
Qed.

(** A run stopped by the length gate, in closed form. *)
Lemma validate_llm_output_too_long (E : Embedder) (NP : NumPy)
    (llm_output question : str) (retrieved_texts : list str) :
  MAX_CHARS < len llm_output ->
  validate_llm_output E NP llm_output question retrieved_texts
  = ([], Ok (false,
             {["reason" := VStr (LengthExceeded MAX_CHARS (len llm_output))]})).
Proof.
  intros Hlen. unfold validate_llm_output.
  destruct (Z.gtb_spec (len llm_output) MAX_CHARS); [reflexivity | lia].
Qed.

Lemma grounding_info_lookup (avg_sim : float) (sims : list float) (reason : message) :
  grounding_info avg_sim sims reason !! "reason" = Some (VStr reason) /\
  grounding_info avg_sim sims reason !! "average_similarity_with_chunks"
  = Some (VFloat avg_sim) /\
  grounding_info avg_sim sims reason !! "individual_similarities"
  = Some (VList sims).
Proof. unfold grounding_info. repeat split; by simplify_map_eq. Qed.

End ValidateFacts.

Section Validator.
Import SentenceTransformer ValidateAgent PyFacts ValidateFacts FloatFacts.

Context (E : Embedder) (NP : NumPy).




(** C6. An answer longer than [MAX_CHARS] is rejected with the
    length-exceeded reason; the run makes no call to the embedding model
    and none to [cosine_similarity], and the explanation holds the
    reason only: neither the mean nor the similarities. *)
Theorem validate_llm_output_length_gate
    (llm_output question : str) (retrieved_texts : list str) :
  MAX_CHARS < len llm_output ->
  exists info,
    validate_llm_output E NP llm_output question retrieved_texts
    = ([], Ok (false, info)) /\
    info !! "reason" = Some (VStr (LengthExceeded MAX_CHARS (len llm_output))) /\
    info !! "average_similarity_with_chunks" = None /\
    info !! "individual_similarities" = None /\
    dom info = {["reason"]}.
Proof.
  intros Hlong. rewrite validate_llm_output_too_long by exact Hlong.
  eexists. split; [reflexivity|].
  repeat split; by simplify_map_eq.
Qed.

(** C7. When either vector is all-zero, [cosine_similarity] returns
    exactly [0.0]: neither the dot product (which raises on vectors of
    different shapes) nor the division is evaluated. *)
Theorem cosine_similarity_all_zero (a b : vec) :
  zero_vector a \/ zero_vector b ->
  cosine_similarity NP a b = Ok 0%float.
Proof.
  intros Hzero. unfold cosine_similarity.
  destruct Hzero as [Ha | Hb].
  - rewrite (all_zero_zero_vector a Ha). reflexivity.
  - rewrite (all_zero_zero_vector b Hb), orb_true_r. reflexivity.
Qed.

(** C10. The question plays no part in the validation: two runs that
    differ only in the question make the same calls and return the same
    verdict and the same explanation. *)
Theorem validate_llm_output_ignores_question
    (llm_output q1 q2 : str) (retrieved_texts : list str) :
  validate_llm_output E NP llm_output q1 retrieved_texts
  = validate_llm_output E NP llm_output q2 retrieved_texts.
Proof. reflexivity. Qed.

End Validator.

(** An answer of 6000 characters against [MAX_CHARS = 5000]. *)
Lemma validate_llm_output_length_gate_witness :
  exists info,
    ValidateAgent.validate_llm_output Doubles.length_embedder Doubles.naive_numpy
      (repeat 97%N (Z.to_nat 6000)) (str_of "q") [str_of "abcd"; str_of "x"]
    = ([], Ok (false, info)) /\
    info !! "reason"
    = Some (ValidateAgent.VStr (ValidateAgent.LengthExceeded 5000 6000)) /\
    info !! "average_similarity_with_chunks" = None /\
    info !! "individual_similarities" = None /\
    dom info = {["reason"]}.
Proof.
  apply (validate_llm_output_length_gate Doubles.length_embedder
           Doubles.naive_numpy (repeat 97%N (Z.to_nat 6000))).
  vm_compute. reflexivity.
Defined.

(** A zero vector against a vector of another shape, and a vector
    against the empty one. *)
Lemma cosine_similarity_all_zero_witness :
  ValidateAgent.cosine_similarity Doubles.naive_numpy
    [0%float; (-0)%float] [1%float; 2%float; 3%float] = Ok 0%float /\
  ValidateAgent.cosine_similarity Doubles.naive_numpy
    [1%float; 2%float; 3%float] [] = Ok 0%float.
Proof.
  split.
  - apply (cosine_similarity_all_zero Doubles.naive_numpy
             [0%float; (-0)%float] [1%float; 2%float; 3%float]).
    left. constructor; [left; reflexivity|].
    constructor; [right; reflexivity | constructor].
  - apply (cosine_similarity_all_zero Doubles.naive_numpy
             [1%float; 2%float; 3%float] []).
    right. constructor.
Defined.


(* ===================================================================== *)
(** * The model on concrete inputs *)
(* ===================================================================== *)

Module Examples.
Import Ingestion SentenceTransformer FaissIndex EmbedIndex Api ValidateAgent.
Import Doubles.

Example split_three_newlines :
  split_blank_line [LF; LF; LF] = [[]; [LF]].
Proof. reflexivity. Qed.

Example split_two_short :
  split_into_chunk (str_of "ab" ++ blank_line ++ str_of "cd") 100
  = Ok [str_of "ab" ++ blank_line ++ str_of "cd"].
Proof. reflexivity. Qed.

Example split_leading_blank_line :
  split_into_chunk (blank_line ++ str_of "abc") 100 = Ok [str_of "abc"].
Proof. reflexivity. Qed.

Example split_flush_before_hard_split :
  split_into_chunk (str_of "ab" ++ blank_line ++ str_of "cdefgh") 4
  = Ok [str_of "ab"; str_of "cdef"; str_of "gh"].
Proof. reflexivity. Qed.

Example split_hard :
  List.map len <$> split_into_chunk (repeat 97%N 250) 100 = Ok [100; 100; 50].
Proof. vm_compute. reflexivity. Qed.

Example split_zero_raises :
  split_into_chunk (str_of "a") 0 = Raise ValueError.
Proof. reflexivity. Qed.

Example split_negative_drops :
  split_into_chunk (str_of "abc") (-5) = Ok [].
Proof. reflexivity. Qed.

Example build_two_documents :
  (fun out => (xb (index_file out), List.map len (meta_chunks out),
               List.map snd (meta_metadata out)))
    <$> building_embedding_index length_embedder
          [(str_of "a.txt", str_of "hello" ++ blank_line ++ str_of "world");
           (str_of "b.txt", repeat 98%N 250)]
  = Ok ([[12%float; 1%float]; [100%float; 1%float];
         [100%float; 1%float]; [50%float; 1%float]],
        [12; 100; 100; 50], [0; 0; 1; 2]).
Proof. vm_compute. reflexivity. Qed.

Example search_three_of_five :
  search naive_faiss (index three_chunks) [[3%float; 1%float]] 5
  = Ok ([[1%float; 4%float; 49%float; infinity; infinity]],
        [[2; 0; 1; -1; -1]]).
Proof. vm_compute. reflexivity. Qed.

Example retrieve_three_of_five :
  retrieve_top_k_chunks length_embedder naive_faiss three_chunks (str_of "abc") 5
  = Ok ([str_of "pi"; str_of "alpha"; str_of "beta gamma"],
        [(str_of "b.txt", 0); (str_of "a.txt", 0); (str_of "a.txt", 1)]).
Proof. vm_compute. reflexivity. Qed.

Example retrieve_nonpositive_k :
  retrieve_top_k_chunks length_embedder naive_faiss three_chunks (str_of "abc") 0
  = Raise AssertionError.
Proof. reflexivity. Qed.

Example validate_accepts :
  (fun r => (r.1, r.2 !! "reason"))
    <$> (validate_llm_output length_embedder naive_numpy
           (str_of "abc") (str_of "q") [str_of "abcd"; str_of "x"]).2
  = Ok (true, Some (VStr Success)).
Proof. vm_compute. reflexivity. Qed.

Example validate_rejects_zero_embeddings :
  (fun r => (r.1, r.2 !! "reason", r.2 !! "individual_similarities"))
    <$> (validate_llm_output zero_embedder naive_numpy
           (str_of "abc") (str_of "q") [str_of "abcd"; str_of "x"]).2
  = Ok (false, Some (VStr (LowSimilarity 0 SIMILARITY_THRESHOLD)),
        Some (VList [0%float; 0%float])).
Proof. vm_compute. reflexivity. Qed.

Example validate_rejects_no_chunk :
  (fun r => (r.1, r.2 !! "average_similarity_with_chunks"))
    <$> (validate_llm_output length_embedder naive_numpy
           (str_of "abc") (str_of "q") []).2
  = Ok (false, Some (VFloat 0)).
Proof. vm_compute. reflexivity. Qed.

(** A mean that is not a number is not below the threshold. *)
Example validate_accepts_nan_mean :
  (fun r => (r.1, r.2 !! "average_similarity_with_chunks"))
    <$> (validate_llm_output nan_embedder naive_numpy
           (str_of "abc") (str_of "q") [str_of "abcd"]).2
  = Ok (true, Some (VFloat nan)).
Proof. vm_compute. reflexivity. Qed.

End Examples.

(* ===================================================================== *)
(** * More on the chunker: what is kept, what fits, degenerate bounds *)
(* ===================================================================== *)

Module ChunkerMore.
Import Ingestion PyFacts IngestionFacts.

(** [thinned t s]: the string [s] is the text [t] with some of its
    blank lines (two line feeds in a row) left out, and nothing else
    changed. *)
Inductive thinned : str -> str -> Prop :=
  | thinned_nil : thinned [] []
  | thinned_keep (c : char) (t s : str) :
      thinned t s -> thinned (c :: t) (c :: s)
  | thinned_drop (t s : str) :
      thinned t s -> thinned (blank_line ++ t) s.

(** A text without its line feeds. *)
Definition visible (s : str) : str := filter (fun c => c <> LF) s.

(** Everything a state holds, in order. *)
Definition content (st : state) : str :=
  concat (chunks st) ++ current_chunk st.

Lemma thinned_refl (s : str) : thinned s s.
Proof. induction s; by constructor. Qed.

Lemma thinned_app (t1 s1 t2 s2 : str) :
  thinned t1 s1 -> thinned t2 s2 -> thinned (t1 ++ t2) (s1 ++ s2).
Proof.
  intros H1 H2. induction H1 as [|c t s _ IH|t s _ IH].
  - exact H2.
  - simpl. by constructor.
  - rewrite <- app_assoc. by constructor.
Qed.

Lemma visible_app (s t : str) : visible (s ++ t) = visible s ++ visible t.
Proof. apply filter_app. Qed.

(** What is left out is line feeds, an even number of them, and the
    rest keeps its order. *)
Lemma thinned_visible (t s : str) : thinned t s -> visible s = visible t.
Proof.
  induction 1 as [|c t s _ IH|t s _ IH]; [reflexivity| |exact IH].
  change (c :: s) with ([c] ++ s). change (c :: t) with ([c] ++ t).
  by rewrite !visible_app, IH.
Qed.

Lemma thinned_sublist (t s : str) : thinned t s -> s `sublist_of` t.
Proof.
  induction 1 as [|c t s _ IH|t s _ IH].
  - constructor.
  - by constructor.
  - by do 2 constructor.
Qed.

Lemma concat_snoc (cs : list str) (c : str) : concat (cs ++ [c]) = concat cs ++ c.
Proof. rewrite concat_app. simpl. by rewrite app_nil_r. Qed.

Lemma content_flush (st : state) : concat (flush st) = content st.
Proof.
  unfold flush, content. destruct (current_chunk st) as [|c cur]; simpl.
  - by rewrite app_nil_r.
  - apply concat_snoc.
Qed.

(** One paragraph is added whole; the separator before it is kept only
    when the paragraph is merged into a non-empty accumulator. *)
Lemma para_body_content (max_chars : Z) (st st' : state) (para : str) :
  0 < max_chars ->
  para_body max_chars st para = Ok st' ->
  content st' = content st ++ para \/
  (current_chunk st <> [] /\ content st' = content st ++ blank_line ++ para).
Proof.
  intros Hpos Hrun.
  destruct (Z.le_gt_cases (len para) max_chars) as [Hshort|Hlong].
  - rewrite para_body_short in Hrun by exact Hshort.
    destruct (_ >? max_chars); injection Hrun as <-; unfold content; simpl.
    + left. by rewrite content_flush.
    + destruct (current_chunk st) as [|c cur] eqn:Hcur; simpl truthy; cbv iota.
      * left. by rewrite app_nil_r.
      * right. split; [discriminate|].
        rewrite <- !app_assoc. reflexivity.
  - rewrite para_body_long in Hrun by lia. injection Hrun as <-.
    left. unfold content at 1. simpl. rewrite app_nil_r, concat_app.
    by rewrite content_flush, pieces_concat by exact Hpos.
Qed.

Lemma join_cons_separated (p : str) (ps : list str) :
  join blank_line (p :: ps) = p ++ concat (List.map (app blank_line) ps).
Proof.
  revert p. induction ps as [|q ps IH]; intros p.
  - simpl. by rewrite app_nil_r.
  - change (join blank_line (p :: q :: ps))
      with (p ++ blank_line ++ join blank_line (q :: ps)).
    rewrite IH. simpl. reflexivity.
Qed.

(** The loop over the paragraphs that follow a separator. *)
Lemma for_each_para_thinned (max_chars : Z) (paras : list str)
    (st st' : state) (t : str) :
  0 < max_chars ->
  for_each (para_body max_chars) paras st = Ok st' ->
  thinned t (content st) ->
  thinned (t ++ concat (List.map (app blank_line) paras)) (content st').
Proof.
  intros Hpos. revert st t. induction paras as [|p paras IH]; intros st t Hrun Ht.
  - injection Hrun as <-. simpl. by rewrite app_nil_r.
  - rewrite for_each_cons in Hrun.
    destruct (para_body max_chars st p) as [st1|e] eqn:Hp; [|discriminate].
    rewrite bind_Ok in Hrun.
    change (concat (List.map (app blank_line) (p :: paras)))
      with ((blank_line ++ p) ++ concat (List.map (app blank_line) paras)).
    rewrite app_assoc.
    apply (IH st1); [exact Hrun|].
    destruct (para_body_content _ _ _ _ Hpos Hp) as [-> | [_ ->]].
    + apply thinned_app; [exact Ht|].
      apply thinned_drop, thinned_refl.
    + apply thinned_app; [exact Ht | apply thinned_refl].
Qed.

(** ** A document that fits *)

Lemma join_cons_cons (p q : str) (ps : list str) :
  join blank_line (p :: q :: ps) = p ++ blank_line ++ join blank_line (q :: ps).
Proof. reflexivity. Qed.

Lemma join_merge (cur p : str) (rest : list str) :
  join blank_line (cur :: p :: rest)
  = join blank_line ((cur ++ blank_line ++ p) :: rest).
Proof.
  rewrite join_cons_cons. destruct rest as [|q rest].
  - reflexivity.
  - rewrite !join_cons_cons, <- !app_assoc. reflexivity.
Qed.

Lemma len_join_first (p : str) (rest : list str) :
  len p <= len (join blank_line (p :: rest)).
Proof.
  destruct rest as [|q rest]; [change (join blank_line [p]) with p; lia|].
  rewrite join_cons_cons, len_app.
  pose proof (len_nonneg (blank_line ++ join blank_line (q :: rest))). lia.
Qed.

(** Paragraphs that fit together after a non-empty accumulator are all
    appended to it. *)
Lemma for_each_para_fits (max_chars : Z) (rest : list str) (cur : str) :
  cur <> [] ->
  len (join blank_line (cur :: rest)) <= max_chars ->
  for_each (para_body max_chars) rest (State [] cur)
  = Ok (State [] (join blank_line (cur :: rest))).
Proof.
  revert cur. induction rest as [|p rest IH]; intros cur Hcur Hfit.
  - reflexivity.
  - rewrite join_merge in Hfit |- *.
    pose proof (len_join_first (cur ++ blank_line ++ p) rest) as Hfirst.
    assert (len (cur ++ blank_line ++ p) = len cur + len p + 2) as Hlen.
    { rewrite !len_app. unfold len. simpl. lia. }
    pose proof (len_nonneg cur).
    pose proof (Z.le_trans _ _ _ Hfirst Hfit) as Hle.
    assert (len p <= max_chars) as Hp by lia.
    rewrite for_each_cons, para_body_short by exact Hp. simpl current_chunk.
    destruct (Z.gtb_spec (len cur + len p + 2) max_chars); [lia|].
    rewrite bind_Ok. simpl chunks.
    destruct cur as [|c cur]; [congruence|]. cbn [truthy].
    apply IH; [discriminate | exact Hfit].
Qed.

(** ** Bounds that are not positive *)

Lemma for_each_para_negative (max_chars : Z) (paras : list str) (st : state) :
  max_chars < 0 -> for_each (para_body max_chars) paras st = Ok st.
Proof.
  intros Hneg. induction paras as [|p paras IH]; [reflexivity|].
  rewrite for_each_cons, para_body_negative by exact Hneg.
  rewrite bind_Ok. exact IH.
Qed.

Lemma para_body_zero_empty (st : state) :
  current_chunk st = [] -> para_body 0 st [] = Ok st.
Proof.
  intros Hcur. rewrite para_body_short by (unfold len; simpl; lia).
  rewrite Hcur. unfold flush. rewrite Hcur. simpl. destruct st; simpl in *.
  by subst.
Qed.

Lemma for_each_para_zero (paras : list str) (cs : list str) :
  for_each (para_body 0) paras (State cs [])
  = if forallb (fun p => bool_decide (p = [])) paras
    then Ok (State cs []) else Raise ValueError.
Proof.
  induction paras as [|p paras IH]; [reflexivity|].
  rewrite for_each_cons. simpl forallb. destruct p as [|c p].
  - rewrite para_body_zero_empty by reflexivity. rewrite bind_Ok. exact IH.
  - rewrite para_body_zero by (unfold len; simpl; lia). reflexivity.
Qed.

End ChunkerMore.

Section ChunkerExtras.
Import Ingestion PyFacts IngestionFacts ChunkerMore.

(** X1. For a positive [max_chars] the chunks, read one after the other,
    are the text with some of its blank lines (two line feeds in a row)
    left out: no other character is lost, none is added, none is moved. *)
Theorem split_into_chunk_keeps_text (text : str) (max_chars : Z) (out : list str) :
  0 < max_chars ->
  split_into_chunk text max_chars = Ok out ->
  thinned text (concat out).
Proof.
  intros Hpos Hrun. unfold split_into_chunk, chunk_paragraphs in Hrun.
  destruct (for_each _ _ _) as [st|e] eqn:Hloop; [|discriminate].
  injection Hrun as <-. rewrite content_flush.
  rewrite <- (join_split_blank_line text).
  destruct (split_blank_line text) as [|p paras] eqn:Hsplit.
  { by apply split_blank_line_nonempty in Hsplit. }
  rewrite join_cons_separated.
  rewrite for_each_cons in Hloop.
  destruct (para_body max_chars _ p) as [st1|e] eqn:Hp; [|discriminate].
  rewrite bind_Ok in Hloop.
  apply (for_each_para_thinned _ _ _ _ _ Hpos Hloop).
  destruct (para_body_content _ _ _ _ Hpos Hp) as [-> | [Hcur _]].
  - apply thinned_refl.
  - by destruct Hcur.
Qed.

Lemma split_into_chunk_keeps_text_witness :
  thinned (str_of "ab" ++ blank_line ++ str_of "cd" ++ blank_line
             ++ str_of "efghijkl")
          (concat [str_of "ab" ++ blank_line ++ str_of "cd";
                   str_of "efghij"; str_of "kl"]).
Proof.
  apply (split_into_chunk_keeps_text
           (str_of "ab" ++ blank_line ++ str_of "cd" ++ blank_line
              ++ str_of "efghijkl") 6); [lia|].
  reflexivity.
Defined.

(** X2. A text that fits in [max_chars] and does not start with a blank
    line is returned whole, as its only chunk, however many paragraphs
    it has. *)
Theorem split_into_chunk_fits (text first : str) (rest : list str)
    (max_chars : Z) :
  split_blank_line text = first :: rest ->
  first <> [] ->
  len text <= max_chars ->
  split_into_chunk text max_chars = Ok [text].
Proof.
  intros Hsplit Hfirst Hfit.
  assert (text = join blank_line (first :: rest)) as Htext.
  { rewrite <- Hsplit. symmetry. apply join_split_blank_line. }
  pose proof (len_join_first first rest) as Hlen. rewrite <- Htext in Hlen.
  unfold split_into_chunk, chunk_paragraphs. rewrite Hsplit, for_each_cons.
  assert (para_body max_chars (State [] []) first = Ok (State [] first)) as ->.
  { rewrite para_body_short by lia. destruct (_ >? max_chars); reflexivity. }
  rewrite bind_Ok, for_each_para_fits, bind_Ok; [|exact Hfirst|by rewrite <- Htext].
  rewrite <- Htext. unfold flush. simpl.
  destruct text; [|reflexivity].
  destruct first; [congruence | discriminate].
Qed.

Lemma split_into_chunk_fits_witness :
  split_into_chunk
    (str_of "a" ++ blank_line ++ blank_line ++ str_of "bc" ++ blank_line) 9
  = Ok [str_of "a" ++ blank_line ++ blank_line ++ str_of "bc" ++ blank_line].
Proof.
  apply (split_into_chunk_fits _ (str_of "a") [[]; str_of "bc"; []]).
  - reflexivity.
  - discriminate.
  - vm_compute. discriminate.
Defined.

(** X3. With a negative [max_chars] every text yields no chunk at all;
    with [max_chars = 0] a text with a non-empty paragraph raises
    [ValueError] (the zero step of [range]), and a text of empty
    paragraphs yields no chunk. *)
Theorem split_into_chunk_nonpositive (text : str) (max_chars : Z) :
  (max_chars < 0 -> split_into_chunk text max_chars = Ok []) /\
  (max_chars = 0 ->
   split_into_chunk text max_chars
   = if forallb (fun p => bool_decide (p = [])) (split_blank_line text)
     then Ok [] else Raise ValueError).
Proof.
  unfold split_into_chunk, chunk_paragraphs. split.
  - intros Hneg. rewrite for_each_para_negative by exact Hneg. reflexivity.
  - intros ->. rewrite for_each_para_zero.
    destruct (forallb _ _); reflexivity.
Qed.

End ChunkerExtras.

(* ===================================================================== *)
(** * More on the indexer and on retrieval from a built index *)
(* ===================================================================== *)

Module IndexerMore.
Import Ingestion SentenceTransformer FaissIndex EmbedIndex Api.
Import PyFacts IngestionFacts EmbedIndexFacts ApiFacts.

(** Every chunk of a text is non-empty and within the bound. *)
Lemma split_into_chunk_Forall (text : str) (max_chars : Z) (out : list str) :
  split_into_chunk text max_chars = Ok out ->
  Forall (fun c => 0 < len c <= max_chars) out.
Proof.
  unfold split_into_chunk, chunk_paragraphs. intros Hrun.
  destruct (for_each _ _ _) as [st|e] eqn:Hloop; [|discriminate].
  injection Hrun as <-.
  assert (Forall (fun c => len c <= max_chars) (flush st)) as Hbound.
  { apply bounded_flush.
    eapply (for_each_invariant (bounded max_chars)); [| |exact Hloop].
    - intros s x s' _. apply para_body_bounded.
    - split; [constructor | simpl; congruence]. }
  assert (Forall (fun c => c <> []) (flush st)) as Hne.
  { apply flush_nonempty.
    eapply (for_each_invariant (fun s => Forall (fun c => c <> []) (chunks s)));
      [| |exact Hloop].
    - intros s x s' _. apply para_body_nonempty.
    - constructor. }
  rewrite Forall_forall in Hbound, Hne. apply Forall_forall. intros c Hc.
  split; [|by apply Hbound].
  specialize (Hne c Hc). destruct c; [congruence|]. unfold len. simpl. lia.
Qed.

Lemma doc_chunks_Ok (doc : str * str) :
  split_into_chunk doc.2 default_max_chars = Ok (doc_chunks doc).
Proof.
  unfold doc_chunks.
  destruct (split_into_chunk_total doc.2 default_max_chars) as [cs ->];
    reflexivity.
Qed.

Lemma corpus_metadata_zip (documents : list (str * str)) :
  corpus_metadata documents
  = concat (zip_with (fun doc cs => imap (fun j _ => (doc.1, Z.of_nat j)) cs)
                     documents (List.map doc_chunks documents)).
Proof.
  unfold corpus_metadata. f_equal.
  induction documents as [|doc documents IH]; [reflexivity|].
  simpl. rewrite IH. reflexivity.
Qed.

(** What a successful build returns. *)
Lemma building_embedding_index_Ok (E : Embedder) (documents : list (str * str))
    (out : artifacts) :
  building_embedding_index E documents = Ok out ->
  corpus_chunks documents <> [] /\
  out = {| index_file := {| d := Z.of_nat (emb_dim E);
                            xb := encode E (corpus_chunks documents) |};
           meta_chunks := corpus_chunks documents;
           meta_metadata := corpus_metadata documents |}.
Proof.
  rewrite building_embedding_index_eq.
  destruct (corpus_chunks documents) as [|c cs] eqn:Hcs; [discriminate|].
  rewrite <- Hcs. intros [= <-]. split; [congruence | reflexivity].
Qed.

(** ** Labels of a search *)

Lemma ranked_labels_in_range (F : Faiss) (index : IndexFlatL2) (q : vec) (idx : Z) :
  idx ∈ (ranked F index q).*2 -> 0 <= idx < ntotal index.
Proof.
  rewrite ranked_labels. intros Hin.
  apply list_elem_of_fmap in Hin as (i & -> & Hi).
  apply list_elem_of_lookup in Hi as [j Hj].
  apply lookup_seq in Hj as [-> Hlt]. unfold ntotal, len. lia.
Qed.

Lemma omap_pick_length {A : Type} (l : list A) (labels : list Z) :
  Forall (fun idx => 0 <= idx < len l) labels ->
  length (omap (pick l (len l)) labels) = length labels.
Proof.
  induction 1 as [|idx labels Hidx _ IH]; [reflexivity|].
  rewrite omap_cons, pick_in_range by exact Hidx.
  destruct (lookup_lt_is_Some_2 l (Z.to_nat idx)) as [x ->];
    [unfold len in Hidx; lia|].
  simpl. by rewrite IH.
Qed.

(** A row of labels is the in-range hits, then the padding. *)
Lemma search_row_labels (F : Faiss) (index : IndexFlatL2) (k : Z) (q : vec) :
  exists hits,
    (search_row F index k q).2
    = hits ++ repeat (-1) (Z.to_nat k - length hits) /\
    Forall (fun idx => 0 <= idx < ntotal index) hits /\
    length hits = Nat.min (Z.to_nat k) (length (xb index)).
Proof.
  exists ((take (Z.to_nat k) (ranked F index q)).*2).
  split; [|split].
  - unfold search_row. simpl. by rewrite length_fmap.
  - apply Forall_forall. intros idx Hin.
    apply (ranked_labels_in_range F index q).
    rewrite fmap_take in Hin. by apply subseteq_take in Hin.
  - rewrite length_fmap, length_take, ranked_length. reflexivity.
Qed.

(** The loop raises, with [IndexError], as soon as a label is a position
    of the chunk list and not of the metadata list. *)
Lemma for_each_retrieve_body_raises (st : store) (labels : list Z)
    (acc : list str * list (str * Z)) :
  (exists idx,
     idx ∈ labels /\ len (chunks_meta st) <= idx < len (chunks_texts st)) ->
  for_each (retrieve_body st) labels acc = Raise IndexError.
Proof.
  revert acc. induction labels as [|idx labels IH]; intros acc (bad & Hin & Hbad).
  - by apply elem_of_nil in Hin.
  - rewrite for_each_cons. unfold retrieve_body at 2.
    pose proof (len_nonneg (chunks_meta st)) as Hm.
    destruct ((0 <=? idx) && (idx <? len (chunks_texts st))) eqn:Hrange.
    + apply andb_true_iff in Hrange as [Hlo Hhi].
      apply Z.leb_le in Hlo. apply Z.ltb_lt in Hhi.
      destruct (py_index_in_range (chunks_texts st) idx) as (t & -> & _); [lia|].
      rewrite bind_Ok.
      destruct (Z.lt_ge_cases idx (len (chunks_meta st))) as [Hok|Hout].
      * destruct (py_index_in_range (chunks_meta st) idx) as (m & -> & _); [lia|].
        rewrite !bind_Ok. apply IH. exists bad. split; [|exact Hbad].
        apply elem_of_cons in Hin as [-> | Hin]; [lia | exact Hin].
      * assert (py_index (chunks_meta st) idx = Raise IndexError) as ->;
          [|reflexivity].
        unfold py_index. destruct (Z.ltb_spec idx 0); [lia|].
        destruct (Z.ltb_spec idx 0); [lia|].
        rewrite lookup_ge_None_2 by (unfold len in Hout; lia). reflexivity.
    + rewrite bind_Ok. apply IH. exists bad. split; [|exact Hbad].
      apply elem_of_cons in Hin as [-> | Hin]; [|exact Hin].
      apply andb_false_iff in Hrange as [Hlo | Hhi].
      * apply Z.leb_gt in Hlo. lia.
      * apply Z.ltb_ge in Hhi. lia.
Qed.

(** With at least as many metadata entries as chunks it never raises. *)
Lemma for_each_retrieve_body_safe (st : store) (labels : list Z)
    (acc : list str * list (str * Z)) :
  len (chunks_texts st) <= len (chunks_meta st) ->
  exists acc', for_each (retrieve_body st) labels acc = Ok acc'.
Proof.
  intros Hlen. apply for_each_total. clear acc. intros acc idx.
  unfold retrieve_body.
  destruct ((0 <=? idx) && (idx <? len (chunks_texts st))) eqn:Hrange;
    [|eexists; reflexivity].
  apply andb_true_iff in Hrange as [Hlo Hhi].
  apply Z.leb_le in Hlo. apply Z.ltb_lt in Hhi.
  destruct (py_index_in_range (chunks_texts st) idx) as (t & -> & _); [lia|].
  destruct (py_index_in_range (chunks_meta st) idx) as (m & -> & _); [lia|].
  eexists; reflexivity.
Qed.

End IndexerMore.

Section IndexerExtras.
Import Ingestion SentenceTransformer FaissIndex EmbedIndex Api ApiService.
Import PyFacts IngestionFacts EmbedIndexFacts ApiFacts IndexerMore.

Context (E : Embedder) (F : Faiss).

(** X4. A successful build keeps every chunk of every document: the
    chunk list is the chunks of the first document, then those of the
    second, and so on; the metadata counts the chunks of each document
    from 0; the stored vectors are the embeddings of the chunk list. *)
Theorem building_embedding_index_in_document_order
    (documents : list (str * str)) (out : artifacts) :
  building_embedding_index E documents = Ok out ->
  exists css,
    Forall2 (fun doc cs => split_into_chunk doc.2 default_max_chars = Ok cs)
            documents css /\
    meta_chunks out = concat css /\
    meta_metadata out
    = concat (zip_with (fun doc cs => imap (fun j _ => (doc.1, Z.of_nat j)) cs)
                       documents css) /\
    xb (index_file out) = List.map (embed_text E) (concat css).
Proof.
  intros Hrun. apply building_embedding_index_Ok in Hrun as [_ ->].
  exists (List.map doc_chunks documents). simpl.
  split; [|split; [reflexivity|split; [apply corpus_metadata_zip|reflexivity]]].
  induction documents as [|doc documents IH]; constructor;
    [apply doc_chunks_Ok | exact IH].
Qed.

(** X5. In a built index every chunk is non-empty and has at most 100
    characters, there is at least one vector, and every stored vector
    has the dimension of the index, which is that of the model. *)
Theorem building_embedding_index_well_formed
    (documents : list (str * str)) (out : artifacts) :
  building_embedding_index E documents = Ok out ->
  Forall (fun c => 0 < len c <= 100) (meta_chunks out) /\
  0 < ntotal (index_file out) /\
  d (index_file out) = Z.of_nat (emb_dim E) /\
  Forall (fun v => len v = d (index_file out)) (xb (index_file out)).
Proof.
  intros Hrun. apply building_embedding_index_Ok in Hrun as [Hne ->]. simpl.
  split; [|split; [|split; [reflexivity|]]].
  - unfold corpus_chunks. apply Forall_concat, Forall_forall.
    intros cs Hcs. apply list_elem_of_In, in_map_iff in Hcs as (doc & <- & _).
    apply (split_into_chunk_Forall doc.2 default_max_chars), doc_chunks_Ok.
  - unfold ntotal, len, encode. simpl. rewrite length_map.
    destruct (corpus_chunks documents); [congruence | simpl; lia].
  - apply Forall_forall. intros v Hv.
    apply list_elem_of_In, in_map_iff in Hv as (c & <- & _).
    unfold len. by rewrite embed_text_dim.
Qed.

(** X6. Against the store loaded from a successful build, a query with
    a positive [k] never raises; it returns [min(k, ntotal)] pairs, and
    in each pair the text is the chunk that the metadata names: chunk
    number [idx] of document [doc_name]. *)
Theorem retrieve_from_built_index (documents : list (str * str))
    (out : artifacts) (query : str) (k : Z) :
  building_embedding_index E documents = Ok out ->
  0 < k ->
  exists texts metas,
    retrieve_top_k_chunks E F (load_store out) query k = Ok (texts, metas) /\
    len texts = Z.min k (ntotal (index_file out)) /\
    Forall2 (fun text meta =>
               exists content cs,
                 (meta.1, content) ∈ documents /\
                 split_into_chunk content default_max_chars = Ok cs /\
                 0 <= meta.2 /\ cs !! Z.to_nat meta.2 = Some text)
            texts metas.
Proof.
  intros Hrun Hk. apply building_embedding_index_Ok in Hrun as [_ ->].
  set (st := load_store _).
  assert (len (chunks_meta st) = len (chunks_texts st)) as Hlen.
  { unfold st, len. simpl. by rewrite corpus_lengths. }
  assert (ntotal (index st) = len (chunks_texts st)) as Hn.
  { unfold st, ntotal, len, encode. simpl. by rewrite length_map. }
  rewrite (retrieve_top_k_chunks_run E F st query k Hk eq_refl).
  destruct (for_each_retrieve_body_safe st
              (search_row F (index st) k (embed_text E query)).2 ([], []))
    as [[texts metas] Hloop]; [lia|].
  rewrite Hloop. exists texts, metas. split; [reflexivity|].
  split.
  - apply for_each_retrieve_body in Hloop as [Ht _].
    cbn [fst snd app] in Ht. subst texts.
    destruct (search_row_labels F (index st) k (embed_text E query))
      as (hits & -> & Hrange & Hhits).
    rewrite omap_app, omap_pick_padding, app_nil_r.
    unfold len at 1. rewrite omap_pick_length by (by rewrite <- Hn).
    change (index_file _) with (index st).
    rewrite Hhits. unfold ntotal, len. lia.
  - apply for_each_retrieve_body_pairs in Hloop
      as (texts' & metas' & Heq & _ & Hpairs).
    simpl in Heq. injection Heq as -> ->.
    eapply Forall2_impl; [exact Hpairs|].
    intros text meta (idx & _ & _ & Htext & Hmeta).
    destruct (corpus_lookup documents _ _ Htext) as ([name content] & j & Hin & Hj & Hm).
    simpl in Hmeta. rewrite Hm in Hmeta. injection Hmeta as <-.
    exists content, (doc_chunks (name, content)). simpl.
    rewrite Nat2Z.id. repeat split; try assumption; [|lia].
    apply (doc_chunks_Ok (name, content)).
Qed.

(** X7. The loop of [retrieve_top_k_chunks] guards the chunk list only.
    With at least as many metadata entries as chunks a query never
    raises in it; with fewer, a [k] that covers an index as long as the
    chunk list makes it raise [IndexError]. *)
Theorem retrieve_top_k_chunks_metadata_bounds (st : store) (query : str) (k : Z) :
  0 < k ->
  d (index st) = Z.of_nat (emb_dim E) ->
  (len (chunks_texts st) <= len (chunks_meta st) ->
   exists r, retrieve_top_k_chunks E F st query k = Ok r) /\
  (len (chunks_meta st) < len (chunks_texts st) ->
   ntotal (index st) = len (chunks_texts st) ->
   ntotal (index st) <= k ->
   retrieve_top_k_chunks E F st query k = Raise IndexError).
Proof.
  intros Hk Hd.
  assert (retrieve_top_k_chunks E F st query k
          = for_each (retrieve_body st)
              (search_row F (index st) k (embed_text E query)).2 ([], []))
    as ->.
  { by apply retrieve_top_k_chunks_run. }
  split.
  - intros Hlen. by apply for_each_retrieve_body_safe.
  - intros Hshort Hn Hcover. apply for_each_retrieve_body_raises.
    destruct (search_row_all F (index st) k (embed_text E query) Hcover)
      as (labels & -> & Hperm).
    pose proof (len_nonneg (chunks_meta st)) as Hm.
    exists (len (chunks_meta st)). split; [|lia].
    apply elem_of_app. left. rewrite Hperm.
    apply list_elem_of_fmap. exists (length (chunks_meta st)).
    split; [reflexivity|].
    apply list_elem_of_lookup. exists (length (chunks_meta st)).
    apply lookup_seq. unfold ntotal, len in *. lia.
Qed.

End IndexerExtras.

(* ===================================================================== *)
(** * Strings of the service: white space and the prompt *)
(* ===================================================================== *)

Module ServiceFacts.
Import Api ValidateAgent ApiService PyFacts.

(** ** [strip] *)

(** A string that does not start with white space. *)
Definition no_lead (s : str) : Prop :=
  match s with
  | [] => True
  | c :: _ => isspace c = false
  end.

Lemma py_lstrip_no_lead (s : str) : no_lead (py_lstrip s).
Proof.
  induction s as [|c s IH]; simpl; [exact I|].
  destruct (isspace c) eqn:Hc; [exact IH | exact Hc].
Qed.

Lemma py_lstrip_id (s : str) : no_lead s -> py_lstrip s = s.
Proof. destruct s as [|c s]; simpl; [reflexivity|]. by intros ->. Qed.

(** [lstrip] removes a prefix of white space. *)
Lemma py_lstrip_split (s : str) :
  exists pre, s = pre ++ py_lstrip s /\ Forall (fun c => isspace c = true) pre.
Proof.
  induction s as [|c s (pre & Hs & Hpre)]; simpl.
  - exists []. split; [reflexivity | constructor].
  - destruct (isspace c) eqn:Hc.
    + exists (c :: pre). split; [simpl; congruence | by constructor].
    + exists []. split; [reflexivity | constructor].
Qed.

Lemma py_lstrip_nil (s : str) :
  py_lstrip s = [] <-> Forall (fun c => isspace c = true) s.
Proof.
  split.
  - intros Hnil. destruct (py_lstrip_split s) as (pre & Hs & Hpre).
    rewrite Hnil, app_nil_r in Hs. by subst.
  - induction 1 as [|c s Hc _ IH]; simpl; [reflexivity|]. by rewrite Hc.
Qed.

(** The stripped string is empty exactly for a string of white space. *)
Lemma py_strip_nil (s : str) :
  py_strip s = [] <-> Forall (fun c => isspace c = true) s.
Proof.
  unfold py_strip. split.
  - intros Hnil. apply py_lstrip_nil.
    assert (py_lstrip (rev (py_lstrip s)) = []) as Hr.
    { apply (f_equal (@rev char)) in Hnil. by rewrite rev_involutive in Hnil. }
    apply py_lstrip_nil in Hr.
    pose proof (py_lstrip_no_lead s) as Hlead.
    destruct (py_lstrip s) as [|c t]; [reflexivity|]. exfalso.
    simpl in Hlead. rewrite Forall_forall in Hr.
    rewrite (Hr c) in Hlead; [discriminate|].
    apply list_elem_of_In, in_rev. rewrite rev_involutive. by left.
  - intros Hall. apply py_lstrip_nil in Hall. rewrite Hall. reflexivity.
Qed.

Lemma py_strip_no_lead (s : str) : no_lead (py_strip s).
Proof.
  unfold py_strip.
  pose proof (py_lstrip_no_lead s) as Hlead.
  destruct (py_lstrip_split (rev (py_lstrip s))) as (pre & Hs & _).
  apply (f_equal (@rev char)) in Hs.
  rewrite rev_involutive, rev_app_distr in Hs.
  destruct (rev (py_lstrip (rev (py_lstrip s)))) as [|c t]; [exact I|].
  rewrite Hs in Hlead. exact Hlead.
Qed.

(** Stripping twice is stripping once. *)
Lemma py_strip_idemp (s : str) : py_strip (py_strip s) = py_strip s.
Proof.
  pose proof (py_strip_no_lead s) as Hlead.
  unfold py_strip at 1. rewrite (py_lstrip_id _ Hlead).
  unfold py_strip. rewrite rev_involutive.
  rewrite (py_lstrip_id _ (py_lstrip_no_lead _)). reflexivity.
Qed.

Lemma truthy_py_strip (s : str) :
  truthy (py_strip s) = false <-> Forall (fun c => isspace c = true) s.
Proof.
  rewrite <- py_strip_nil. destruct (py_strip s); simpl; split; congruence.
Qed.

(** Whether a request ended with a response. *)
Definition is_response (o : outcome) : bool :=
  match o with
  | QueryResponse _ _ => true
  | _ => false
  end.

(** ** The prompt *)

(** The section of chunk number [i]. *)
Definition chunk_section (i : nat) (chunk : str) : str :=
  str_of "CHUNK " ++ py_str (Z.of_nat i + 1) ++ str_of ":" ++ [LF]
  ++ chunk ++ [LF; LF].

Lemma fold_prompt_body (retrieved_texts : list str) (prompt : str) :
  fold_left prompt_body (enumerate retrieved_texts) prompt
  = prompt ++ concat (imap chunk_section retrieved_texts).
Proof.
  unfold enumerate.
  induction retrieved_texts as [|c cs IH] using rev_ind.
  - simpl. by rewrite app_nil_r.
  - rewrite !imap_app, fold_left_app, IH, concat_app. simpl.
    unfold prompt_body, chunk_section. simpl.
    rewrite Nat.add_0_r, !app_nil_r, <- !app_assoc. reflexivity.
Qed.

End ServiceFacts.

Section ValidatorExtras.
Import SentenceTransformer ValidateAgent PyFacts ValidateFacts.

Context (E : Embedder) (NP : NumPy).

(** X8. With no retrieved chunk the validator rejects every answer:
    the mean is then [0.0], which is below the threshold. *)
Theorem validate_llm_output_no_chunk (llm_output question : str) :
  exists trace info,
    validate_llm_output E NP llm_output question [] = (trace, Ok (false, info)).
Proof.
  destruct (Z.le_gt_cases (len llm_output) MAX_CHARS) as [Hshort|Hlong].
  - destruct (validate_llm_output_grounding E NP llm_output question [] Hshort)
      as (sims & Hsims & ->).
    inversion Hsims; subst. do 2 eexists. reflexivity.
  - rewrite validate_llm_output_too_long by exact Hlong.
    do 2 eexists. reflexivity.
Qed.

(** X9. An answer that passes the length gate costs two calls to the
    embedding model, first for the answer alone, then for all the chunks
    at once, and one call to [cosine_similarity] per chunk, in the order
    of the chunks; the explanation lists one similarity per chunk. *)
Theorem validate_llm_output_calls (llm_output question : str)
    (retrieved_texts : list str) :
  len llm_output <= MAX_CHARS ->
  exists accept info sims,
    validate_llm_output E NP llm_output question retrieved_texts
    = ([Encode [llm_output]; Encode retrieved_texts]
         ++ List.map (fun text => Cosine (embed_text E llm_output)
                                         (embed_text E text))
                     retrieved_texts,
       Ok (accept, info)) /\
    info !! "individual_similarities" = Some (VList sims) /\
    length sims = length retrieved_texts.
Proof.
  intros Hshort.
  destruct (validate_llm_output_grounding E NP llm_output question
              retrieved_texts Hshort) as (sims & Hsims & ->).
  pose proof (Forall2_length _ _ _ Hsims) as Hlen.
  assert (Cosine (embed_text E llm_output) <$> encode E retrieved_texts
          = List.map (fun text => Cosine (embed_text E llm_output)
                                         (embed_text E text)) retrieved_texts)
    as ->.
  { unfold encode. apply List.map_map. }
  destruct (PrimFloat.ltb (average NP sims) SIMILARITY_THRESHOLD);
    do 2 eexists; exists sims; (split; [reflexivity|]);
    (split; [apply grounding_info_lookup | by symmetry]).
Qed.

End ValidatorExtras.

Section PromptExtras.
Import Api ApiService PyFacts ServiceFacts.

(** X10. The prompt is the fixed preamble and context header, then one
    section per retrieved chunk, in order, each made of the label
    [CHUNK i+1:], a line feed, the chunk verbatim and a blank line, then
    the question header, the question verbatim, a blank line and the
    fixed instruction. *)
Theorem build_prompt_layout (question : str) (retrieved_texts : list str) :
  build_prompt question retrieved_texts
  = PREAMBLE ++ CONTEXT_HEADER
    ++ concat (imap (fun i chunk =>
                       str_of "CHUNK " ++ py_str (Z.of_nat i + 1)
                       ++ str_of ":" ++ [LF] ++ chunk ++ [LF; LF])
                    retrieved_texts)
    ++ QUESTION_HEADER ++ question ++ [LF; LF] ++ INSTRUCTION.
Proof.
  unfold build_prompt. rewrite fold_prompt_body.
  rewrite <- !app_assoc. reflexivity.
Qed.

(** X11. For the same retrieved chunks, two questions that give the
    same prompt are the same question. *)
Theorem build_prompt_question_inj (q1 q2 : str) (retrieved_texts : list str) :
  build_prompt q1 retrieved_texts = build_prompt q2 retrieved_texts ->
  q1 = q2.
Proof.
  unfold build_prompt. intros Heq.
  apply app_inv_tail in Heq. apply app_inv_head in Heq.
  by apply app_inv_tail in Heq.
Qed.

End PromptExtras.

(* ===================================================================== *)
(** * The endpoint *)
(* ===================================================================== *)

Module AskFacts.
Import SentenceTransformer FaissIndex Api ValidateAgent ApiService.
Import PyFacts ApiFacts ValidateFacts ServiceFacts.

(** White space around a string does not survive [strip]. *)
Lemma py_lstrip_pad (pre s : str) :
  Forall (fun c => isspace c = true) pre -> py_lstrip (pre ++ s) = py_lstrip s.
Proof. induction 1 as [|c pre Hc _ IH]; simpl; [reflexivity|]. by rewrite Hc. Qed.

Lemma py_lstrip_app (s post : str) :
  py_lstrip s <> [] -> py_lstrip (s ++ post) = py_lstrip s ++ post.
Proof.
  induction s as [|c s IH]; simpl; [congruence|].
  destruct (isspace c); [exact IH | reflexivity].
Qed.

Lemma py_strip_pad (pre s post : str) :
  Forall (fun c => isspace c = true) pre ->
  Forall (fun c => isspace c = true) post ->
  py_strip (pre ++ s ++ post) = py_strip s.
Proof.
  intros Hpre Hpost. unfold py_strip. rewrite py_lstrip_pad by exact Hpre.
  destruct (py_lstrip s) as [|c t] eqn:Hs.
  - apply py_lstrip_nil in Hs.
    assert (py_lstrip (s ++ post) = []) as ->; [|reflexivity].
    apply py_lstrip_nil, Forall_app. by split.
  - rewrite py_lstrip_app by congruence. rewrite Hs, rev_app_distr.
    rewrite py_lstrip_pad; [reflexivity|].
    apply Forall_forall. intros x Hx. rewrite Forall_forall in Hpost.
    apply Hpost. apply list_elem_of_In. apply in_rev.
    by apply list_elem_of_In.
Qed.

(** The validator always returns. *)
Lemma validate_llm_output_returns (E : Embedder) (NP : NumPy)
    (llm_output question : str) (retrieved_texts : list str) :
  exists trace accept info,
    validate_llm_output E NP llm_output question retrieved_texts
    = (trace, Ok (accept, info)).
Proof.
  destruct (Z.le_gt_cases (len llm_output) MAX_CHARS) as [Hshort|Hlong].
  - destruct (validate_llm_output_grounding E NP llm_output question
                retrieved_texts Hshort) as (sims & _ & ->).
    destruct (PrimFloat.ltb _ _); do 3 eexists; reflexivity.
  - rewrite validate_llm_output_too_long by exact Hlong.
    do 3 eexists; reflexivity.
Qed.

(** A verdict reached without any chunk is a rejection. *)
Lemma validate_llm_output_nil_rejects (E : Embedder) (NP : NumPy)
    (llm_output question : str)
    (trace : list event) (accept : bool) (info : gmap string value) :
  validate_llm_output E NP llm_output question [] = (trace, Ok (accept, info)) ->
  accept = false.
Proof.
  destruct (Z.le_gt_cases (len llm_output) MAX_CHARS) as [Hshort|Hlong].
  - destruct (validate_llm_output_grounding E NP llm_output question [] Hshort)
      as (sims & Hsims & ->).
    inversion Hsims; subst. by intros [= _ <- _].
  - rewrite validate_llm_output_too_long by exact Hlong. by intros [= _ <- _].
Qed.

(** What an accepted answer and a rejection look like. *)
Lemma validate_llm_output_verdicts (E : Embedder) (NP : NumPy)
    (llm_output question : str) (retrieved_texts : list str)
    (trace : list event) (accept : bool) (info : gmap string value) :
  validate_llm_output E NP llm_output question retrieved_texts
  = (trace, Ok (accept, info)) ->
  (accept = true -> len llm_output <= MAX_CHARS) /\
  (accept = false ->
   info !! "reason" = Some (VStr (LengthExceeded MAX_CHARS (len llm_output))) \/
   exists avg_sim,
     info !! "reason" = Some (VStr (LowSimilarity avg_sim SIMILARITY_THRESHOLD)) /\
     info !! "average_similarity_with_chunks" = Some (VFloat avg_sim)).
Proof.
  destruct (Z.le_gt_cases (len llm_output) MAX_CHARS) as [Hshort|Hlong].
  - destruct (validate_llm_output_grounding E NP llm_output question
                retrieved_texts Hshort) as (sims & _ & ->).
    destruct (PrimFloat.ltb _ _); intros [= <- <- <-];
      (split; [intros; first [lia | discriminate]|]); [|discriminate].
    intros _. right. exists (average NP sims).
    split; apply grounding_info_lookup.
  - rewrite validate_llm_output_too_long by exact Hlong.
    intros [= <- <- <-]. split; [discriminate|]. intros _. left.
    by simplify_map_eq.
Qed.

(** A query that returns gives at most [k] texts. *)
Lemma retrieve_top_k_chunks_length (E : Embedder) (F : Faiss) (st : store)
    (query : str) (k : Z) (texts : list str) (metas : list (str * Z)) :
  retrieve_top_k_chunks E F st query k = Ok (texts, metas) ->
  len texts <= k.
Proof.
  intros Hrun. apply retrieve_top_k_chunks_Ok in Hrun as [Hk Hrun].
  apply for_each_retrieve_body_pairs in Hrun
    as (texts' & metas' & Heq & Hlen & _).
  simpl in Heq. injection Heq as -> ->.
  pose proof (search_row_length F (index st) k (embed_text E query)) as Hrow.
  unfold len in *. lia.
Qed.

(** An empty chunk list gives nothing to retrieve. *)
Lemma retrieve_top_k_chunks_empty_store (E : Embedder) (F : Faiss) (st : store)
    (query : str) (k : Z) (texts : list str) (metas : list (str * Z)) :
  chunks_texts st = [] ->
  retrieve_top_k_chunks E F st query k = Ok (texts, metas) ->
  texts = [].
Proof.
  intros Hempty Hrun. apply retrieve_top_k_chunks_Ok in Hrun as [_ Hrun].
  apply for_each_retrieve_body_pairs in Hrun
    as (texts' & metas' & Heq & _ & Hpairs).
  simpl in Heq. injection Heq as -> ->.
  destruct Hpairs as [|t m ts ms (idx & _ & Hidx & _) _]; [reflexivity|].
  rewrite Hempty in Hidx. unfold len in Hidx. simpl in Hidx. lia.
Qed.

Section Cases.
Context (E : Embedder) (F : Faiss) (NP : NumPy) (C : Completion) (st : store).

(** The ways a request can go, with the calls it makes. *)
Lemma ask_cases (request_question : str) :
  let question := py_strip request_question in
  (question = [] /\
   ask E F NP C st request_question = ([], HTTPException 400 EmptyQuestion)) \/
  (question <> [] /\
   exists e,
     retrieve_top_k_chunks E F st question TOP_K = Raise e /\
     ask E F NP C st request_question
     = ([Embed [question]; Search TOP_K], Uncaught e)) \/
  (question <> [] /\
   exists texts metas,
     retrieve_top_k_chunks E F st question TOP_K = Ok (texts, metas) /\
     ((chat_completion C (build_prompt question texts) = None /\
       ask E F NP C st request_question
       = ([Embed [question]; Search TOP_K;
           OpenAI (build_prompt question texts)], RuntimeError)) \/
      (exists content trace accept info,
         chat_completion C (build_prompt question texts) = Some content /\
         validate_llm_output E NP (py_strip content) question texts
         = (trace, Ok (accept, info)) /\
         ask E F NP C st request_question
         = ([Embed [question]; Search TOP_K;
             OpenAI (build_prompt question texts)] ++ (Validator <$> trace),
            if accept then QueryResponse (py_strip content) texts
            else HTTPException 502 (ValidationFailed info))))).
Proof.
  cbv zeta. unfold ask.
  destruct (py_strip request_question) as [|c q] eqn:Hq;
    [left; split; reflexivity|].
  right. cbn [truthy negb]. set (question := c :: q).
  assert (question <> []) as Hne by discriminate.
  destruct (retrieve_top_k_chunks E F st question TOP_K) as [[texts metas]|e];
    [right | left; split; [exact Hne | eexists; split; reflexivity]].
  split; [exact Hne|]. exists texts, metas. split; [reflexivity|].
  unfold call_openai.
  destruct (chat_completion C (build_prompt question texts)) as [content|];
    [right | left; split; reflexivity].
  destruct (validate_llm_output_returns E NP (py_strip content) question texts)
    as (trace & accept & info & Hv).
  exists content, trace, accept, info. split; [reflexivity|].
  split; [exact Hv|]. rewrite Hv. simpl. destruct accept; reflexivity.
Qed.

End Cases.

End AskFacts.

Section AskExtras.
Import SentenceTransformer FaissIndex Api ValidateAgent ApiService.
Import PyFacts ServiceFacts AskFacts.

Context (E : Embedder) (F : Faiss) (NP : NumPy) (C : Completion) (st : store).

(** X12. A question made of white space only (or empty) is answered
    with status 400 before anything is called; and status 400 is given
    to such questions only. *)
Theorem ask_empty_question (request_question : str) :
  (Forall (fun c => isspace c = true) request_question ->
   ask E F NP C st request_question = ([], HTTPException 400 EmptyQuestion)) /\
  (forall log d,
     ask E F NP C st request_question = (log, HTTPException 400 d) ->
     Forall (fun c => isspace c = true) request_question).
Proof.
  split.
  - intros Hblank. apply py_strip_nil in Hblank.
    unfold ask. rewrite Hblank. reflexivity.
  - intros log d Hrun. apply py_strip_nil.
    destruct (ask_cases E F NP C st request_question)
      as [[Hq _] | [(_ & e & _ & Heq) | (_ & texts & metas & _ & Hllm)]];
      [exact Hq | congruence |].
    destruct Hllm as [[_ Heq] | (content & trace & accept & info & _ & _ & Heq)];
      [congruence|].
    rewrite Heq in Hrun. destruct accept; discriminate.
Qed.

(** X13. A request that ends with a response has been through every
    step: the stripped question is not empty; the returned chunks are
    what retrieval gave for it with [k = TOP_K], at most five; the answer
    is the stripped reply of the completion service to the prompt built
    from that question and those chunks; and the validator accepted that
    answer against those chunks, so the answer has at most [MAX_CHARS]
    characters. *)
Theorem ask_response_validated (request_question : str) (log : list call)
    (answer : str) (retrieved_chunks : list str) :
  ask E F NP C st request_question
  = (log, QueryResponse answer retrieved_chunks) ->
  py_strip request_question <> [] /\
  (exists metas,
     retrieve_top_k_chunks E F st (py_strip request_question) TOP_K
     = Ok (retrieved_chunks, metas)) /\
  len retrieved_chunks <= 5 /\
  (exists content,
     chat_completion C
       (build_prompt (py_strip request_question) retrieved_chunks)
     = Some content /\
     answer = py_strip content) /\
  (exists trace info,
     validate_llm_output E NP answer (py_strip request_question)
       retrieved_chunks = (trace, Ok (true, info))) /\
  len answer <= MAX_CHARS.
Proof.
  intros Hrun.
  destruct (ask_cases E F NP C st request_question)
    as [[_ Heq] | [(_ & e & _ & Heq) | (Hne & texts & metas & Hret & Hllm)]];
    [congruence | congruence |].
  destruct Hllm as [[_ Heq] | (content & trace & accept & info & Hc & Hv & Heq)];
    [congruence|].
  rewrite Heq in Hrun. destruct accept; [|discriminate].
  injection Hrun as _ <- <-.
  split; [exact Hne|]. split; [by exists metas|].
  split; [exact (retrieve_top_k_chunks_length _ _ _ _ _ _ _ Hret)|].
  split; [by exists content|]. split; [by exists trace, info|].
  by apply (validate_llm_output_verdicts _ _ _ _ _ _ _ _ Hv).
Qed.

(** X14. White space before and after the question changes nothing:
    neither the outcome nor the calls. *)
Theorem ask_ignores_padding (pre request_question post : str) :
  Forall (fun c => isspace c = true) pre ->
  Forall (fun c => isspace c = true) post ->
  ask E F NP C st (pre ++ request_question ++ post)
  = ask E F NP C st request_question.
Proof.
  intros Hpre Hpost. unfold ask.
  rewrite (py_strip_pad _ _ _ Hpre Hpost). reflexivity.
Qed.

(** X15. Over an empty chunk list no request ends with a response:
    nothing is retrieved, and the validator rejects every answer that
    has no chunk behind it. *)
Theorem ask_empty_store (request_question : str) :
  chunks_texts st = [] ->
  is_response (ask E F NP C st request_question).2 = false.
Proof.
  intros Hempty.
  destruct (ask_cases E F NP C st request_question)
    as [[_ Heq] | [(_ & e & _ & Heq) | (_ & texts & metas & Hret & Hllm)]];
    [by rewrite Heq | by rewrite Heq |].
  destruct Hllm as [[_ Heq] | (content & trace & accept & info & _ & Hv & Heq)];
    [by rewrite Heq|].
  apply (retrieve_top_k_chunks_empty_store _ _ _ _ _ _ _ Hempty) in Hret.
  subst texts.
  apply validate_llm_output_nil_rejects in Hv. subst accept.
  by rewrite Heq.
Qed.

(** X16. A request ends with the [RuntimeError] of [call_openai]
    exactly when the question is not blank, retrieval returned and the
    completion failed on the prompt; the service was then called once,
    and the validator not at all. *)
Theorem ask_completion_failure (request_question : str) (log : list call) :
  ask E F NP C st request_question = (log, RuntimeError) <->
  py_strip request_question <> [] /\
  exists texts metas,
    retrieve_top_k_chunks E F st (py_strip request_question) TOP_K
    = Ok (texts, metas) /\
    chat_completion C (build_prompt (py_strip request_question) texts) = None /\
    log = [Embed [py_strip request_question]; Search TOP_K;
           OpenAI (build_prompt (py_strip request_question) texts)].
Proof.
  destruct (ask_cases E F NP C st request_question)
    as [[Hq Heq] | [(Hne & e & Hret & Heq) | (Hne & texts & metas & Hret & Hllm)]].
  - rewrite Heq. split; [discriminate | intros [? _]; congruence].
  - rewrite Heq. split; [discriminate|].
    intros (_ & texts & metas & Hret' & _). congruence.
  - destruct Hllm as [[Hc Heq] | (content & trace & accept & info & Hc & _ & Heq)];
      rewrite Heq.
    + split.
      * intros [= <-]. split; [exact Hne|]. by exists texts, metas.
      * intros (_ & texts' & metas' & Hret' & _ & ->).
        rewrite Hret in Hret'. injection Hret' as <- _. reflexivity.
    + split; [destruct accept; discriminate|].
      intros (_ & texts' & metas' & Hret' & Hc' & _).
      rewrite Hret in Hret'. injection Hret' as <- _. congruence.
Qed.

(** X17. Status 502 always carries the explanation of the validator,
    and that explanation always has a reason: the length of the answer,
    or the low mean similarity together with the mean. *)
Theorem ask_validation_failure (request_question : str) (log : list call)
    (d : detail) :
  ask E F NP C st request_question = (log, HTTPException 502 d) ->
  exists info,
    d = ValidationFailed info /\
    ((exists size,
        MAX_CHARS < size /\
        info !! "reason" = Some (VStr (LengthExceeded MAX_CHARS size))) \/
     (exists avg_sim,
        info !! "reason"
        = Some (VStr (LowSimilarity avg_sim SIMILARITY_THRESHOLD)) /\
        info !! "average_similarity_with_chunks" = Some (VFloat avg_sim))).
Proof.
  intros Hrun.
  destruct (ask_cases E F NP C st request_question)
    as [[_ Heq] | [(_ & e & _ & Heq) | (_ & texts & metas & _ & Hllm)]];
    [congruence | congruence |].
  destruct Hllm as [[_ Heq] | (content & trace & accept & info & _ & Hv & Heq)];
    [congruence|].
  rewrite Heq in Hrun. destruct accept; [discriminate|].
  injection Hrun as _ <-. exists info. split; [reflexivity|].
  destruct (Z.le_gt_cases (len (py_strip content)) MAX_CHARS) as [Hshort|Hlong].
  - right.
    destruct (proj2 (validate_llm_output_verdicts _ _ _ _ _ _ _ _ Hv) eq_refl)
      as [Hlong | Hlow]; [|exact Hlow].
    exfalso.
    destruct (ValidateFacts.validate_llm_output_grounding E NP
                (py_strip content) (py_strip request_question) texts Hshort)
      as (sims & _ & Hclosed).
    rewrite Hclosed in Hv.
    destruct (PrimFloat.ltb _ _); [|discriminate Hv].
    revert Hv. intros [= _ <-].
    destruct (ValidateFacts.grounding_info_lookup (average NP sims) sims
                (LowSimilarity (average NP sims) SIMILARITY_THRESHOLD))
      as (Hr & _).
    congruence.
  - left. exists (len (py_strip content)). split; [lia|].
    rewrite ValidateFacts.validate_llm_output_too_long in Hv by exact Hlong.
    revert Hv. intros [= _ <-]. by simplify_map_eq.
Qed.

End AskExtras.

(* ===================================================================== *)
(** * Loading the documents *)
(* ===================================================================== *)

Module LoadFacts.
Import Os IngestionLoad.

Lemma io_bind_Done {A B : Type} (a : A) (f : A -> io B) : (Done a ≫= f) = f a.
Proof. reflexivity. Qed.

Lemma io_for_each_cons {S A : Type} (body : S -> A -> io S) (x : A)
    (xs : list A) (s : S) :
  for_each body (x :: xs) s = (body s x ≫= for_each body xs).
Proof. reflexivity. Qed.

(** A new key goes to the end of the dictionary. *)
Lemma dict_set_fresh (d : dict) (key value : str) :
  key ∉ d.*1 -> dict_set d key value = d ++ [(key, value)].
Proof.
  induction d as [|[k v] d IH]; intros Hfresh; [reflexivity|].
  simpl in *. apply not_elem_of_cons in Hfresh as [Hne Hfresh].
  destruct (decide (k = key)); [congruence|]. by rewrite IH.
Qed.

(** What a file name contributes: its name and its text. *)
Definition loaded (fs : FileSystem) (folder_path : str) (file_name : str)
    (item : str * str) : Prop :=
  item.1 = file_name /\
  read_text fs (path_join fs folder_path file_name) = Done item.2.

(** The loop over distinct names that are not yet keys. *)
Lemma for_each_load_body (U : Unicode) (fs : FileSystem) (folder_path : str)
    (names : list str) (docs docs' : dict) :
  NoDup (docs.*1 ++ names) ->
  for_each (load_body U fs folder_path) names docs = Done docs' <->
  exists items,
    docs' = docs ++ items /\
    Forall2 (loaded fs folder_path) (filter (fun n => is_txt U n = true) names)
            items.
Proof.
  revert docs. induction names as [|n names IH]; intros docs Hnodup.
  - simpl. split.
    + intros [= <-]. exists []. rewrite app_nil_r. split; [reflexivity|constructor].
    + intros (items & -> & Hitems). inversion Hitems. by rewrite app_nil_r.
  - rewrite io_for_each_cons. unfold load_body at 2.
    assert (n ∉ docs.*1) as Hfresh.
    { apply NoDup_app in Hnodup as (_ & Hdisj & _). intros Hin.
      apply (Hdisj n Hin). by left. }
    assert (forall text, NoDup ((docs ++ [(n, text)]).*1 ++ names)) as Hnext.
    { intros text. rewrite fmap_app, <- app_assoc. exact Hnodup. }
    rewrite filter_cons. destruct (is_txt U n) eqn:Htxt.
    + rewrite decide_True by reflexivity.
      destruct (read_text fs (path_join fs folder_path n)) as [text|e] eqn:Hread.
      * rewrite !io_bind_Done, dict_set_fresh by exact Hfresh.
        rewrite (IH _ (Hnext text)). split.
        -- intros (items & -> & Hitems). exists ((n, text) :: items).
           rewrite <- app_assoc. split; [reflexivity|].
           constructor; [by split | exact Hitems].
        -- intros (items & -> & Hitems).
           apply Forall2_cons_inv_l in Hitems
             as ([k v] & items' & [Hk Hv] & Hrest & ->).
           simpl in Hk, Hv. subst k. rewrite Hread in Hv. injection Hv as <-.
           exists items'. rewrite <- app_assoc. split; [reflexivity | exact Hrest].
      * simpl. split; [discriminate|].
        intros (items & _ & Hitems).
        apply Forall2_cons_inv_l in Hitems as (item & ? & [_ Hv] & _).
        rewrite Hread in Hv. discriminate.
    + rewrite decide_False by discriminate.
      rewrite io_bind_Done. apply IH.
      apply NoDup_app in Hnodup as (Hd & Hdisj & Hn).
      apply NoDup_app. split; [exact Hd|]. split.
      * intros x Hx Hx'. apply (Hdisj x Hx). by right.
      * by apply NoDup_cons in Hn as [_ Hn].
Qed.

(** Names that are not text files leave the dictionary as it is. *)
Lemma for_each_load_body_no_txt (U : Unicode) (fs : FileSystem)
    (folder_path : str) (names : list str) (docs : dict) :
  Forall (fun n => is_txt U n = false) names ->
  for_each (load_body U fs folder_path) names docs = Done docs.
Proof.
  induction 1 as [|n names Hn _ IH]; [reflexivity|].
  rewrite io_for_each_cons. unfold load_body at 2. rewrite Hn.
  rewrite io_bind_Done. exact IH.
Qed.

End LoadFacts.

Section LoadExtras.
Import Os IngestionLoad LoadFacts.

Context (U : Unicode) (fs : FileSystem).

(** X18. Over a listing of distinct names, [load_documents] returns a
    dictionary exactly when every file whose lower-cased name ends in
    [.txt] can be read, and the dictionary then holds these names, in
    the order of the listing, each with the text read from the file of
    that name in the folder; the other files are not read. *)
Theorem load_documents_text_files (folder_path : str) (names : list str)
    (docs : dict) :
  listdir fs folder_path = Done names ->
  NoDup names ->
  load_documents U fs folder_path = Done docs <->
  Forall2 (fun file_name item =>
             item.1 = file_name /\
             read_text fs (path_join fs folder_path file_name) = Done item.2)
          (filter (fun n => is_txt U n = true) names) docs.
Proof.
  intros Hlist Hnodup. unfold load_documents. rewrite Hlist, io_bind_Done.
  rewrite (for_each_load_body U fs folder_path names [] docs) by exact Hnodup.
  split.
  - intros (items & -> & Hitems). exact Hitems.
  - intros Hitems. exists docs. split; [reflexivity | exact Hitems].
Qed.

(** X19. The build started on a folder: when the folder cannot be
    listed the error is that of the listing, and nothing is chunked;
    when no name in the folder ends in [.txt] the build raises
    [IndexError], as for an empty corpus. *)
Theorem building_embedding_index_folder (E : Embedder) (docs_folder : str) :
  (forall e, listdir fs docs_folder = Fail e ->
     EmbedIndexMain.building_embedding_index U fs E docs_folder = Fail e) /\
  (forall names,
     listdir fs docs_folder = Done names ->
     Forall (fun n => is_txt U n = false) names ->
     EmbedIndexMain.building_embedding_index U fs E docs_folder
     = Done (Raise IndexError)).
Proof.
  unfold EmbedIndexMain.building_embedding_index, load_documents. split.
  - intros e ->. reflexivity.
  - intros names -> Hnone.
    rewrite io_bind_Done, for_each_load_body_no_txt by exact Hnone.
    reflexivity.
Qed.

End LoadExtras.

(* ===================================================================== *)
(** * The statements above, on the doubles *)
(* ===================================================================== *)

Section OnDoubles.
Import Ingestion SentenceTransformer FaissIndex EmbedIndex Api ValidateAgent.
Import Os IngestionLoad ApiService ServiceFacts.
Import Doubles ServiceDoubles.

Lemma building_embedding_index_in_document_order_witness :
  exists css,
    Forall2 (fun doc cs => split_into_chunk doc.2 default_max_chars = Ok cs)
            two_documents css /\
    meta_chunks two_documents_artifacts = concat css /\
    meta_metadata two_documents_artifacts
    = concat (zip_with (fun doc cs => imap (fun j _ => (doc.1, Z.of_nat j)) cs)
                       two_documents css) /\
    xb (index_file two_documents_artifacts)
    = List.map (embed_text length_embedder) (concat css).
Proof.
  apply (building_embedding_index_in_document_order length_embedder
           two_documents two_documents_artifacts).
  vm_compute. reflexivity.
Defined.

Lemma building_embedding_index_well_formed_witness :
  Forall (fun c => 0 < len c <= 100) (meta_chunks two_documents_artifacts) /\
  0 < ntotal (index_file two_documents_artifacts) /\
  d (index_file two_documents_artifacts) = Z.of_nat (emb_dim length_embedder) /\
  Forall (fun v => len v = d (index_file two_documents_artifacts))
         (xb (index_file two_documents_artifacts)).
Proof.
  apply (building_embedding_index_well_formed length_embedder two_documents).
  vm_compute. reflexivity.
Defined.

Lemma retrieve_from_built_index_witness :
  exists texts metas,
    retrieve_top_k_chunks length_embedder naive_faiss
      (load_store two_documents_artifacts) (str_of "abc") 5
    = Ok (texts, metas) /\
    len texts = Z.min 5 (ntotal (index_file two_documents_artifacts)) /\
    Forall2 (fun text meta =>
               exists content cs,
                 (meta.1, content) ∈ two_documents /\
                 split_into_chunk content default_max_chars = Ok cs /\
                 0 <= meta.2 /\ cs !! Z.to_nat meta.2 = Some text)
            texts metas.
Proof.
  apply (retrieve_from_built_index length_embedder naive_faiss two_documents).
  - vm_compute. reflexivity.
  - reflexivity.
Defined.

Lemma retrieve_top_k_chunks_metadata_bounds_witness :
  (exists r,
     retrieve_top_k_chunks length_embedder naive_faiss three_chunks
       (str_of "abc") 5 = Ok r) /\
  retrieve_top_k_chunks length_embedder naive_faiss short_metadata
    (str_of "abc") 5 = Raise IndexError.
Proof.
  split.
  - apply (proj1 (retrieve_top_k_chunks_metadata_bounds length_embedder
                    naive_faiss three_chunks (str_of "abc") 5
                    eq_refl eq_refl)).
    vm_compute. discriminate.
  - apply (proj2 (retrieve_top_k_chunks_metadata_bounds length_embedder
                    naive_faiss short_metadata (str_of "abc") 5
                    eq_refl eq_refl)).
    + reflexivity.
    + reflexivity.
    + vm_compute. discriminate.
Defined.

Lemma validate_llm_output_calls_witness :
  exists accept info sims,
    validate_llm_output length_embedder naive_numpy (str_of "abc") (str_of "q")
      [str_of "abcd"; str_of "x"]
    = ([Encode [str_of "abc"]; Encode [str_of "abcd"; str_of "x"]]
         ++ List.map (fun text => Cosine (embed_text length_embedder (str_of "abc"))
                                         (embed_text length_embedder text))
                     [str_of "abcd"; str_of "x"],
       Ok (accept, info)) /\
    info !! "individual_similarities" = Some (VList sims) /\
    length sims = length [str_of "abcd"; str_of "x"].
Proof.
  apply (validate_llm_output_calls length_embedder naive_numpy).
  vm_compute. discriminate.
Defined.

Lemma build_prompt_question_inj_witness : str_of "q?" = str_of "q?".
Proof.
  apply (build_prompt_question_inj (str_of "q?") (str_of "q?") [str_of "a"]).
  reflexivity.
Defined.

Lemma ask_response_validated_witness :
  len [str_of "pi"; str_of "alpha"; str_of "beta gamma"] <= 5 /\
  len (str_of "alpha") <= MAX_CHARS.
Proof.
  destruct (ask_response_validated length_embedder naive_faiss naive_numpy
              (constant_completion (str_of " alpha ")) three_chunks
              (str_of "  abc ")
              (ask length_embedder naive_faiss naive_numpy
                 (constant_completion (str_of " alpha ")) three_chunks
                 (str_of "  abc ")).1
              (str_of "alpha")
              [str_of "pi"; str_of "alpha"; str_of "beta gamma"])
    as (_ & _ & Hchunks & _ & _ & Hanswer); [vm_compute; reflexivity|].
  split; [exact Hchunks | exact Hanswer].
Defined.

Lemma ask_ignores_padding_witness :
  ask length_embedder naive_faiss naive_numpy
    (constant_completion (str_of " alpha ")) three_chunks
    (str_of "  " ++ str_of "abc" ++ [LF])
  = ask length_embedder naive_faiss naive_numpy
      (constant_completion (str_of " alpha ")) three_chunks (str_of "abc").
Proof.
  apply (ask_ignores_padding length_embedder naive_faiss naive_numpy
           (constant_completion (str_of " alpha ")) three_chunks
           (str_of "  ") (str_of "abc") [LF]).
  - repeat constructor.
  - repeat constructor.
Defined.

Lemma ask_empty_store_witness :
  is_response
    (ask length_embedder naive_faiss naive_numpy
       (constant_completion (str_of "alpha")) empty_store (str_of "abc")).2
  = false.
Proof.
  apply (ask_empty_store length_embedder naive_faiss naive_numpy
           (constant_completion (str_of "alpha")) empty_store (str_of "abc")).
  reflexivity.
Defined.

Lemma ask_validation_failure_witness :
  exists info,
    ValidationFailed
      {[ "reason" := VStr (LowSimilarity 0 SIMILARITY_THRESHOLD);
         "individual_similarities" := VList [];
         "average_similarity_with_chunks" := VFloat 0 ]}
    = ValidationFailed info /\
    ((exists size,
        MAX_CHARS < size /\
        info !! "reason" = Some (VStr (LengthExceeded MAX_CHARS size))) \/
     (exists avg_sim,
        info !! "reason"
        = Some (VStr (LowSimilarity avg_sim SIMILARITY_THRESHOLD)) /\
        info !! "average_similarity_with_chunks" = Some (VFloat avg_sim))).
Proof.
  apply (ask_validation_failure length_embedder naive_faiss naive_numpy
           (constant_completion (str_of "alpha")) empty_store (str_of "abc")
           (ask length_embedder naive_faiss naive_numpy
              (constant_completion (str_of "alpha")) empty_store
              (str_of "abc")).1).
  reflexivity.
Defined.

Lemma load_documents_text_files_witness :
  load_documents ascii_lower small_folder (str_of "docs")
  = Done [(str_of "a.txt", str_of "hello"); (str_of "B.TXT", str_of "world")].
Proof.
  apply (load_documents_text_files ascii_lower small_folder (str_of "docs")
           [str_of "a.txt"; str_of "notes.md"; str_of "B.TXT"]).
  - reflexivity.
  - apply (bool_decide_unpack _). vm_compute. exact I.
  - vm_compute filter.
    constructor; [split; reflexivity|].
    constructor; [split; reflexivity|]. constructor.
Defined.

End OnDoubles.

(* ===================================================================== *)
(** * Loading, prompting and asking on concrete inputs *)
(* ===================================================================== *)

Module ServiceExamples.
Import Ingestion Api ValidateAgent Os IngestionLoad ApiService.
Import Doubles ServiceDoubles.

Example strip_both_ends :
  py_strip ([LF] ++ str_of "  a b " ++ [160%N]) = str_of "a b".
Proof. reflexivity. Qed.

Example load_small_folder :
  load_documents ascii_lower small_folder (str_of "docs")
  = Done [(str_of "a.txt", str_of "hello"); (str_of "B.TXT", str_of "world")].
Proof. vm_compute. reflexivity. Qed.

Example load_missing_folder :
  load_documents ascii_lower small_folder (str_of "nowhere") = Fail OSError.
Proof. reflexivity. Qed.

Example prompt_two_chunks :
  build_prompt (str_of "q?") [str_of "a"; str_of "b"]
  = PREAMBLE ++ CONTEXT_HEADER
    ++ str_of "CHUNK 1:" ++ [LF] ++ str_of "a" ++ [LF; LF]
    ++ str_of "CHUNK 2:" ++ [LF] ++ str_of "b" ++ [LF; LF]
    ++ QUESTION_HEADER ++ str_of "q?" ++ [LF; LF] ++ INSTRUCTION.
Proof. vm_compute. reflexivity. Qed.

(** A chunk that holds the label of the next one: the prompt is that of
    two chunks. *)
Example prompt_forged_label :
  build_prompt (str_of "q?")
    [str_of "a" ++ [LF; LF] ++ str_of "CHUNK 2:" ++ [LF] ++ str_of "b"]
  = build_prompt (str_of "q?") [str_of "a"; str_of "b"].
Proof. vm_compute. reflexivity. Qed.

Example ask_answers :
  (ask length_embedder naive_faiss naive_numpy
     (constant_completion (str_of " alpha ")) three_chunks (str_of "  abc ")).2
  = QueryResponse (str_of "alpha")
      [str_of "pi"; str_of "alpha"; str_of "beta gamma"].
Proof. vm_compute. reflexivity. Qed.

Example ask_completion_fails :
  ask length_embedder naive_faiss naive_numpy failing_completion three_chunks
    (str_of "abc")
  = ([Embed [str_of "abc"]; Search 5;
      OpenAI (build_prompt (str_of "abc")
                [str_of "pi"; str_of "alpha"; str_of "beta gamma"])],
     RuntimeError).
Proof. vm_compute. reflexivity. Qed.

Example ask_blank :
  ask length_embedder naive_faiss naive_numpy failing_completion three_chunks
    (str_of "   ")
  = ([], HTTPException 400 EmptyQuestion).
Proof. reflexivity. Qed.

End ServiceExamples.
